(** * Customer: a self-validating record with four ways to build it

    A shallow embedding of [src/customer.py] and the proofs of its contract.

    Conventions of the embedding.
    - A Python [str] is a Rocq [string]; the character with code [n] stands
      for the code point U+00nn, so the model covers the strs over Latin-1.
      [len], [strip], [split], [isdigit] and [replace] act on code points,
      which here are the characters of the string.
    - Python objects are terms of [pyval].  [bool] is a subclass of [int] in
      Python, hence [isinstance(True, int)] holds; [as_int] records that.
    - A dict is a finite map from str keys to values ([gmap string pyval]):
      the program only asks whether a str key is present and reads it.
    - Every [raise] of the source is a constructor of [exn], named after the
      error taxonomy of the specification; the source raises [ValueError]
      with a different message at each place.
    - A method is a function from the object before the call to an outcome
      and the object after the call ([M]), so that a failed call can be
      compared with the object it was made on.
    - [json.loads] belongs to the Python library, not to the program: the
      constructor takes it as a parameter [json_loads].  [Json.loads] is a
      decoder written here, used where a concrete text is decoded.
    - CPython turns an int into text, and a text into an int, only up to
      4300 decimal digits ([sys.get_int_max_str_digits()] by default), and
      raises its own ValueError beyond: [Py.format] and [Json.loads] do the
      same.  The depth of recursion the interpreter allows is not part of
      the model. *)

From Stdlib Require Import ZArith String Ascii List DecimalString DecimalFacts
  DecimalPos Lia.
From stdpp Require Import gmap strings list.

Set Warnings "-register-all".
Set Default Proof Using "Type".

(** ** Python values *)

Inductive pyval : Type :=
| PyNone
| PyBool (b : bool)
| PyInt (z : Z)
| PyFloat                       (* a float; only its type is ever tested *)
| PyStr (s : string)
| PyList (l : list pyval)
| PyDict (d : gmap string pyval).

(** [isinstance(v, int)], with the integer value when it holds. *)
Definition as_int (v : pyval) : option Z :=
  match v with
  | PyInt z => Some z
  | PyBool b => Some (Z.b2z b)
  | _ => None
  end.

(** The five attributes; they name the slots of an object and tag the errors
    of a field (the source passes the field's Russian label instead). *)
Inductive field : Type :=
| f_customer_id     (* "Customer ID" *)
| f_name            (* "Наименование заказчика" *)
| f_address         (* "Адрес" *)
| f_phone           (* "Телефон" *)
| f_contact_person. (* "Контактное лицо" *)

Inductive argument_error : Type :=
| UnsupportedArgumentType   (* "Не поддерживаемый тип аргумента" *)
| WrongArgumentCount.       (* "Неверное количество аргументов" *)

Inductive exn : Type :=
| InvalidArgumentError (why : argument_error)
| FormatError                                  (* "Некорректный JSON формат" *)
| MissingFieldError (missing_fields : list string)
                                               (* "Отсутствуют обязательные поля: [...]" *)
| TypeError (f : field)                        (* "... должен быть строкой / целым числом" *)
| RangeError                                   (* "... должен быть положительным числом" *)
| EmptyValueError (f : field)                  (* "... не может быть пустым" *)
| TooShortError (f : field) (min_length : nat) (* "... должен содержать минимум ..." *)
| InvalidFormatError                           (* "... только цифры и допустимые символы" *)
| MalformedNameError                           (* "... должно содержать имя и фамилию" *)
| PyTypeError      (* the interpreter's own TypeError: a membership test or
                      a subscript on an object that does not support it *)
| PyKeyError       (* a dict read at an absent key *)
| AttributeError   (* an attribute read before it was assigned *)
| PyValueError     (* the interpreter's own ValueError: an int of more than
                      4300 digits had to be turned into text *)
| Unmodelled.      (* the run leaves the model: json.loads ended in another
                      way than a value of [pyval] or JSONDecodeError, or a
                      float or container had to be turned into text *)

Inductive result (A : Type) : Type :=
| Ok (a : A)
| Raise (e : exn).
Arguments Ok {A} a.
Arguments Raise {A} e.

#[global] Instance result_ret : MRet result := fun A a => Ok a.
#[global] Instance result_bind : MBind result := fun A B k r =>
  match r with
  | Ok a => k a
  | Raise e => Raise e
  end.

(** ** The str methods the program calls *)

Module Py.

(** [str.isspace] on one character: the whitespace of Python below U+0100 is
    U+0009..U+000D, U+001C..U+0020, U+0085 and U+00A0. *)
Definition isspace (c : ascii) : bool :=
  let n := N_of_ascii c in
  (((9 <=? n) && (n <=? 13)) || ((28 <=? n) && (n <=? 32))
   || (n =? 133) || (n =? 160))%N.

Fixpoint lstrip (s : string) : string :=
  match s with
  | EmptyString => EmptyString
  | String c r => if isspace c then lstrip r else s
  end.

Fixpoint rstrip (s : string) : string :=
  match s with
  | EmptyString => EmptyString
  | String c r =>
      match rstrip r with
      | EmptyString => if isspace c then EmptyString else String c EmptyString
      | r' => String c r'
      end
  end.

(** [s.strip()] *)
Definition strip (s : string) : string := rstrip (lstrip s).

(** [len(s)] *)
Definition len (s : string) : nat := String.length s.

Definition starts_token (s : string) : bool :=
  match s with
  | EmptyString => false
  | String c _ => negb (isspace c)
  end.

(** [s.split()]: the maximal runs of characters that are not whitespace. *)
Fixpoint split (s : string) : list string :=
  match s with
  | EmptyString => []
  | String c r =>
      if isspace c then split r
      else if starts_token r then
        match split r with
        | t :: ts => String c t :: ts
        | [] => [String c EmptyString]
        end
      else String c EmptyString :: split r
  end.

(** Some character of [s] is whitespace. *)
Fixpoint has_space (s : string) : bool :=
  match s with
  | EmptyString => false
  | String c r => isspace c || has_space r
  end.

(** [s] has a last character and it is not whitespace. *)
Fixpoint ends_token (s : string) : bool :=
  match s with
  | EmptyString => false
  | String c EmptyString => negb (isspace c)
  | String _ r => ends_token r
  end.

(** [s.replace(c, e)] for a one-character [c] and the empty str [e]. *)
Fixpoint remove (c : ascii) (s : string) : string :=
  match s with
  | EmptyString => EmptyString
  | String d r => if Ascii.eqb d c then remove c r else String d (remove c r)
  end.

(** [str.isdigit] on one character: below U+0100 the digits of Python are
    "0".."9" and the superscripts U+00B2, U+00B3, U+00B9. *)
Definition isdigit_char (c : ascii) : bool :=
  let n := N_of_ascii c in
  (((48 <=? n) && (n <=? 57)) || (n =? 178) || (n =? 179) || (n =? 185))%N.

Fixpoint all_digits (s : string) : bool :=
  match s with
  | EmptyString => true
  | String c r => isdigit_char c && all_digits r
  end.

(** [s.isdigit()]: every character is a digit and there is at least one. *)
Definition isdigit (s : string) : bool :=
  match s with
  | EmptyString => false
  | _ => all_digits s
  end.

(** [needle in hay] for two strs: [needle] occurs in [hay]. *)
Fixpoint contains (needle hay : string) : bool :=
  String.prefix needle hay ||
  match hay with
  | EmptyString => false
  | String _ r => contains needle r
  end.

(** [x == PyStr s] *)
Definition eq_str (s : string) (x : pyval) : bool :=
  match x with
  | PyStr t => String.eqb t s
  | _ => false
  end.

(** [key not in data] *)
Definition not_in (key : string) (data : pyval) : result bool :=
  match data with
  | PyDict d => Ok (bool_decide (d !! key = None))
  | PyList l => Ok (negb (existsb (eq_str key) l))
  | PyStr s => Ok (negb (contains key s))
  | _ => Raise PyTypeError
  end.

(** [data[key]] for a str [key] *)
Definition getitem (data : pyval) (key : string) : result pyval :=
  match data with
  | PyDict d =>
      match d !! key with
      | Some v => Ok v
      | None => Raise PyKeyError
      end
  | _ => Raise PyTypeError
  end.

(** The decimal numeral of an int *)
Definition str_of_int (z : Z) : string := NilZero.string_of_int (Z.to_int z).

(** The longest int, in decimal digits, that the interpreter turns into text. *)
Definition int_max_str_digits : nat := 4300.

(** The number of decimal digits of [z]; the sign does not count. *)
Definition int_digits (z : Z) : nat := String.length (str_of_int (Z.abs z)).

(** [f"{v}"] *)
Definition format (v : pyval) : result string :=
  match v with
  | PyNone => Ok "None"
  | PyBool true => Ok "True"
  | PyBool false => Ok "False"
  | PyInt z =>
      if (int_max_str_digits <? int_digits z)%nat then Raise PyValueError
      else Ok (str_of_int z)
  | PyStr s => Ok s
  | _ => Raise Unmodelled
  end.

End Py.

(** What [json.loads] answers on a text. *)
Inductive json_outcome : Type :=
| Decoded (data : pyval)
| JSONDecodeError
| JSONOther.   (* anything else, see [Unmodelled] *)

(** ** The class *)

Module Customer.

(** The attributes of an instance; [None] is an attribute not assigned yet,
    as on the object [__new__] hands to [__init__]. *)
Record t : Type := mk {
  __customer_id : option pyval;
  __name : option pyval;
  __address : option pyval;
  __phone : option pyval;
  __contact_person : option pyval
}.

Definition blank : t := mk None None None None None.

Definition slot (f : field) (self : t) : option pyval :=
  match f with
  | f_customer_id => __customer_id self
  | f_name => __name self
  | f_address => __address self
  | f_phone => __phone self
  | f_contact_person => __contact_person self
  end.

Definition assign (f : field) (v : pyval) (self : t) : t :=
  match f with
  | f_customer_id =>
      mk (Some v) (__name self) (__address self) (__phone self) (__contact_person self)
  | f_name =>
      mk (__customer_id self) (Some v) (__address self) (__phone self) (__contact_person self)
  | f_address =>
      mk (__customer_id self) (__name self) (Some v) (__phone self) (__contact_person self)
  | f_phone =>
      mk (__customer_id self) (__name self) (__address self) (Some v) (__contact_person self)
  | f_contact_person =>
      mk (__customer_id self) (__name self) (__address self) (__phone self) (Some v)
  end.

(** A method body: from the object before the call to what the call gives
    back (a value or a raised exception) and the object after it. *)
Definition M (A : Type) : Type := t -> result A * t.

#[global] Instance M_ret : MRet M := fun A a self => (Ok a, self).
#[global] Instance M_bind : MBind M := fun A B k m self =>
  match m self with
  | (Ok a, self') => k a self'
  | (Raise e, self') => (Raise e, self')
  end.

(** A computation that does not touch the object (the static methods). *)
Definition lift {A : Type} (r : result A) : M A := fun self => (r, self).

Definition raise {A : Type} (e : exn) : M A := lift (Raise e).

(** [self.__f = v] *)
Definition setattr (f : field) (v : pyval) : M unit :=
  fun self => (Ok tt, assign f v self).

(** [self.__f] *)
Definition getattr (f : field) : M pyval :=
  fun self =>
    match slot f self with
    | Some v => (Ok v, self)
    | None => (Raise AttributeError, self)
    end.

(** *** Static validation methods *)

Definition __validate_customer_id (customer_id : pyval) : result unit :=
  match as_int customer_id with
  | None => Raise (TypeError f_customer_id)
  | Some z => if (z <=? 0)%Z then Raise RangeError else Ok tt
  end.

Definition __validate_string_field
  (value : pyval) (field_name : field) (min_length : nat) : result unit :=
  match value with
  | PyStr s =>
      if bool_decide (Py.strip s = EmptyString) then Raise (EmptyValueError field_name)
      else if (Py.len (Py.strip s) <? min_length)%nat
           then Raise (TooShortError field_name min_length)
      else Ok tt
  | _ => Raise (TypeError field_name)
  end.

(** The four chained [replace] calls of [__validate_phone]: space, the two
    parentheses and the hyphen are replaced by the empty str, in this order. *)
Definition clean (phone : string) : string :=
  Py.remove "-" (Py.remove ")" (Py.remove "(" (Py.remove " " phone))).

Definition __validate_phone (phone : pyval) : result unit :=
  match phone with
  | PyStr s =>
      let clean_phone := clean s in
      if negb (Py.isdigit clean_phone) then Raise InvalidFormatError
      else if (Py.len clean_phone <? 5)%nat then Raise (TooShortError f_phone 5)
      else Ok tt
  | _ => Raise (TypeError f_phone)
  end.

Definition __validate_contact_person (contact_person : pyval) : result unit :=
  __validate_string_field contact_person f_contact_person 2 ;;
  match contact_person with
  | PyStr s =>
      if (length (Py.split (Py.strip s)) <? 2)%nat then Raise MalformedNameError
      else Ok tt
  | _ => Raise AttributeError   (* never reached: the check above raised *)
  end.

(** *** Construction *)

Definition __validate_and_init
  (customer_id name address phone contact_person : pyval) : M unit :=
  lift (__validate_customer_id customer_id) ;;
  lift (__validate_string_field name f_name 2) ;;
  lift (__validate_string_field address f_address 5) ;;
  lift (__validate_phone phone) ;;
  lift (__validate_contact_person contact_person) ;;
  setattr f_customer_id customer_id ;;
  setattr f_name name ;;
  setattr f_address address ;;
  setattr f_phone phone ;;
  setattr f_contact_person contact_person.

Definition required_fields : list string :=
  ["customer_id"; "name"; "address"; "phone"; "contact_person"].

(** [[field for field in fields if field not in data]] *)
Fixpoint missing_fields (fields : list string) (data : pyval) : result (list string) :=
  match fields with
  | [] => Ok []
  | f :: rest =>
      absent ← Py.not_in f data;
      more ← missing_fields rest data;
      Ok (if absent : bool then f :: more else more)
  end.

Definition __init_from_dict (data : pyval) : M unit :=
  missing ← lift (missing_fields required_fields data);
  match missing with
  | _ :: _ => raise (MissingFieldError missing)
  | [] =>
      customer_id ← lift (Py.getitem data "customer_id");
      name ← lift (Py.getitem data "name");
      address ← lift (Py.getitem data "address");
      phone ← lift (Py.getitem data "phone");
      contact_person ← lift (Py.getitem data "contact_person");
      __validate_and_init customer_id name address phone contact_person
  end.

Definition __init_from_kwargs (kwargs : gmap string pyval) : M unit :=
  missing ← lift (missing_fields required_fields (PyDict kwargs));
  match missing with
  | _ :: _ => raise (MissingFieldError missing)
  | [] =>
      customer_id ← lift (Py.getitem (PyDict kwargs) "customer_id");
      name ← lift (Py.getitem (PyDict kwargs) "name");
      address ← lift (Py.getitem (PyDict kwargs) "address");
      phone ← lift (Py.getitem (PyDict kwargs) "phone");
      contact_person ← lift (Py.getitem (PyDict kwargs) "contact_person");
      __validate_and_init customer_id name address phone contact_person
  end.

Section Init.

(** [json.loads], the library function the constructor calls on a str. *)
Variable json_loads : string -> json_outcome.

(** The [try] of the source spans [json.loads] and [__init_from_dict], and
    catches [JSONDecodeError] only: what [__init_from_dict] raises is a plain
    [ValueError] or a [TypeError], and passes through. *)
Definition __init__ (args : list pyval) (kwargs : gmap string pyval) : M unit :=
  match args with
  | [arg] =>
      match arg with
      | PyStr text =>
          match json_loads text with
          | Decoded data => __init_from_dict data
          | JSONDecodeError => raise FormatError
          | JSONOther => raise Unmodelled
          end
      | PyDict _ => __init_from_dict arg
      | _ => raise (InvalidArgumentError UnsupportedArgumentType)
      end
  | [a0; a1; a2; a3; a4] => __validate_and_init a0 a1 a2 a3 a4
  | _ =>
      if bool_decide (kwargs = ∅) then raise (InvalidArgumentError WrongArgumentCount)
      else __init_from_kwargs kwargs
  end.

(** The call [Customer(...)]: the caller gets the object only when
    [__init__] returns. *)
Definition new (args : list pyval) (kwargs : gmap string pyval) : result t :=
  match __init__ args kwargs blank with
  | (Ok _, self) => Ok self
  | (Raise e, _) => Raise e
  end.

End Init.

(** *** Getters *)

Definition get_customer_id : M pyval := getattr f_customer_id.
Definition get_name : M pyval := getattr f_name.
Definition get_address : M pyval := getattr f_address.
Definition get_phone : M pyval := getattr f_phone.
Definition get_contact_person : M pyval := getattr f_contact_person.

(** *** Setters *)

Definition set_customer_id (customer_id : pyval) : M unit :=
  lift (__validate_customer_id customer_id) ;;
  setattr f_customer_id customer_id.

Definition set_name (name : pyval) : M unit :=
  lift (__validate_string_field name f_name 2) ;;
  setattr f_name name.

Definition set_address (address : pyval) : M unit :=
  lift (__validate_string_field address f_address 5) ;;
  setattr f_address address.

Definition set_phone (phone : pyval) : M unit :=
  lift (__validate_phone phone) ;;
  setattr f_phone phone.

Definition set_contact_person (contact_person : pyval) : M unit :=
  lift (__validate_contact_person contact_person) ;;
  setattr f_contact_person contact_person.

Definition __str__ : M string :=
  customer_id ← getattr f_customer_id;
  name ← getattr f_name;
  phone ← getattr f_phone;
  contact_person ← getattr f_contact_person;
  id_text ← lift (Py.format customer_id);
  name_text ← lift (Py.format name);
  phone_text ← lift (Py.format phone);
  contact_text ← lift (Py.format contact_person);
  mret ("Customer: ID=" +:+ id_text +:+ ", Name='" +:+ name_text +:+
        "', Phone='" +:+ phone_text +:+ "', Contact='" +:+ contact_text +:+ "'").

End Customer.

(** ** A decoder for JSON texts

    [Json.loads] follows the grammar [json.loads] accepts (strict mode):
    objects, arrays, strings with their escapes, numbers, [true], [false],
    [null], [NaN] and the infinities, with whitespace between tokens.  It
    instantiates the library function in the examples.  A string with a
    [\uXXXX] escape above U+00FF is well formed but its value is not a str of
    this model: the text then decodes to no value, and the answer is
    [JSONOther].  An int of more than 4300 digits makes [json.loads] raise
    the interpreter's ValueError when it reads it: the answer is [JSONOther]
    too.  The fuel is twice the length of the text and never runs out
    ([loads_has_fuel]); the depth of recursion the interpreter allows is not
    modelled. *)

Module Json.

Inductive parsed (A : Type) : Type :=
| Parsed (a : A) (rest : string)
| Malformed
| Refused      (* an int of too many digits *)
| Exhausted.   (* no fuel left *)
Arguments Parsed {A} a rest.
Arguments Malformed {A}.
Arguments Refused {A}.
Arguments Exhausted {A}.

Definition quote : ascii := "034".

(** The whitespace of JSON: space, tab, line feed, carriage return. *)
Definition is_ws (c : ascii) : bool :=
  Ascii.eqb c " " || Ascii.eqb c "009" || Ascii.eqb c "010" || Ascii.eqb c "013".

Fixpoint skip_ws (s : string) : string :=
  match s with
  | String c r => if is_ws c then skip_ws r else s
  | EmptyString => EmptyString
  end.

Fixpoint strip_prefix (p s : string) : option string :=
  match p, s with
  | EmptyString, _ => Some s
  | String a p', String b s' => if Ascii.eqb a b then strip_prefix p' s' else None
  | String _ _, EmptyString => None
  end.

Definition is_digit (c : ascii) : bool :=
  let n := N_of_ascii c in ((48 <=? n) && (n <=? 57))%N.

Definition hex_value (c : ascii) : option N :=
  let n := N_of_ascii c in
  if ((48 <=? n) && (n <=? 57))%N then Some (n - 48)%N
  else if ((65 <=? n) && (n <=? 70))%N then Some (n - 55)%N
  else if ((97 <=? n) && (n <=? 102))%N then Some (n - 87)%N
  else None.

Definition hex4 (h1 h2 h3 h4 : ascii) : option N :=
  match hex_value h1, hex_value h2, hex_value h3, hex_value h4 with
  | Some a, Some b, Some c, Some d => Some (((a * 16 + b) * 16 + c) * 16 + d)%N
  | _, _, _, _ => None
  end.

(** The character a one-letter escape stands for. *)
Definition escape (e : ascii) : option ascii :=
  if Ascii.eqb e quote then Some quote
  else if Ascii.eqb e "\" then Some "\"%char
  else if Ascii.eqb e "/" then Some "/"%char
  else if Ascii.eqb e "b" then Some "008"%char
  else if Ascii.eqb e "f" then Some "012"%char
  else if Ascii.eqb e "n" then Some "010"%char
  else if Ascii.eqb e "r" then Some "013"%char
  else if Ascii.eqb e "t" then Some "009"%char
  else None.

(** Put one decoded character in front of the rest of a string; [None] is a
    code point, or a string, outside the model. *)
Definition push (c : option ascii) (p : parsed (option string)) : parsed (option string) :=
  match p with
  | Parsed t rest =>
      Parsed (match c, t with
              | Some c, Some t => Some (String c t)
              | _, _ => None
              end) rest
  | Malformed => Malformed
  | Refused => Refused
  | Exhausted => Exhausted
  end.

(** The body of a string, read from just after its opening quote. *)
Fixpoint scanstring (s : string) : parsed (option string) :=
  match s with
  | EmptyString => Malformed
  | String c r =>
      if Ascii.eqb c quote then Parsed (Some EmptyString) r
      else if Ascii.eqb c "\" then
        match r with
        | String "u" (String h1 (String h2 (String h3 (String h4 r')))) =>
            match hex4 h1 h2 h3 h4 with
            | Some n =>
                push (if (n <? 256)%N then Some (ascii_of_N n) else None) (scanstring r')
            | None => Malformed
            end
        | String e r' =>
            match escape e with
            | Some x => push (Some x) (scanstring r')
            | None => Malformed
            end
        | EmptyString => Malformed
        end
      else if (N_of_ascii c <? 32)%N then Malformed
      else push (Some c) (scanstring r)
  end.

(** The longest prefix of decimal digits and what follows it. *)
Fixpoint span_digits (s : string) : string * string :=
  match s with
  | String c r =>
      if is_digit c then let '(ds, rest) := span_digits r in (String c ds, rest)
      else (EmptyString, s)
  | EmptyString => (EmptyString, EmptyString)
  end.

Fixpoint digits_value (acc : Z) (ds : string) : Z :=
  match ds with
  | String c r => digits_value (10 * acc + (Z.of_N (N_of_ascii c) - 48)) r
  | EmptyString => acc
  end.

(** An optional fraction: a dot and at least one digit. *)
Definition fraction (s : string) : bool * string :=
  match s with
  | String "." r =>
      match span_digits r with
      | (String _ _, rest) => (true, rest)
      | (EmptyString, _) => (false, s)
      end
  | _ => (false, s)
  end.

(** An optional exponent: [e] or [E], an optional sign, at least one digit. *)
Definition exponent (s : string) : bool * string :=
  match s with
  | String c r =>
      if Ascii.eqb c "e" || Ascii.eqb c "E" then
        let r' := match r with
                  | String d r1 => if Ascii.eqb d "+" || Ascii.eqb d "-" then r1 else r
                  | EmptyString => r
                  end in
        match span_digits r' with
        | (String _ _, rest) => (true, rest)
        | (EmptyString, _) => (false, s)
        end
      else (false, s)
  | EmptyString => (false, s)
  end.

(** What stands where a number may start. *)
Inductive lexeme : Type :=
| Number (v : pyval) (rest : string)
| TooLong      (* an int of more digits than the interpreter reads *)
| NoNumber.

(** A number: an int when it has neither fraction nor exponent. *)
Definition number (s : string) : lexeme :=
  let '(negative, s1) := match s with
                         | String "-" r => (true, r)
                         | _ => (false, s)
                         end in
  let int_part :=
    match s1 with
    | String c r =>
        if Ascii.eqb c "0" then Some (String c EmptyString, r)
        else if is_digit c then Some (span_digits s1)
        else None
    | EmptyString => None
    end in
  match int_part with
  | Some (ds, r) =>
      let '(has_fraction, r1) := fraction r in
      let '(has_exponent, r2) := exponent r1 in
      if has_fraction || has_exponent then Number PyFloat r2
      else if (Py.int_max_str_digits <? String.length ds)%nat then TooLong
      else Number (PyInt (if negative : bool then - digits_value 0 ds
                          else digits_value 0 ds)) r2
  | None => NoNumber
  end.

(** The values that are not strings, objects or arrays. *)
Definition literal (s : string) : parsed (option pyval) :=
  match strip_prefix "null" s with
  | Some r => Parsed (Some PyNone) r
  | None =>
  match strip_prefix "true" s with
  | Some r => Parsed (Some (PyBool true)) r
  | None =>
  match strip_prefix "false" s with
  | Some r => Parsed (Some (PyBool false)) r
  | None =>
  match number s with
  | Number v r => Parsed (Some v) r
  | TooLong => Refused
  | NoNumber =>
  match strip_prefix "NaN" s with
  | Some r => Parsed (Some PyFloat) r
  | None =>
  match strip_prefix "Infinity" s with
  | Some r => Parsed (Some PyFloat) r
  | None =>
  match strip_prefix "-Infinity" s with
  | Some r => Parsed (Some PyFloat) r
  | None => Malformed
  end end end end end end end.

Definition add_member (key : option string) (v : option pyval)
  (acc : option (gmap string pyval)) : option (gmap string pyval) :=
  match key, v, acc with
  | Some k, Some x, Some d => Some (<[k := x]> d)
  | _, _, _ => None
  end.

Definition add_element (v : option pyval) (acc : option (list pyval)) : option (list pyval) :=
  match v, acc with
  | Some x, Some l => Some (l ++ [x])
  | _, _ => None
  end.

(** [scan_once] reads one value; [members] reads the members of an object
    from just after the opening quote of a key; [elements] reads the elements
    of an array from the start of an element. *)
Fixpoint scan_once (fuel : nat) (s : string) {struct fuel} : parsed (option pyval) :=
  match fuel with
  | O => Exhausted
  | S fuel =>
      match s with
      | EmptyString => Malformed
      | String c r =>
          if Ascii.eqb c quote then
            match scanstring r with
            | Parsed t rest => Parsed (PyStr <$> t) rest
            | Malformed => Malformed
            | Refused => Refused
            | Exhausted => Exhausted
            end
          else if Ascii.eqb c "{" then
            match skip_ws r with
            | String d r' =>
                if Ascii.eqb d "}" then Parsed (Some (PyDict ∅)) r'
                else if Ascii.eqb d quote then members fuel (Some ∅) r'
                else Malformed
            | EmptyString => Malformed
            end
          else if Ascii.eqb c "[" then
            match skip_ws r with
            | String "]" r' => Parsed (Some (PyList [])) r'
            | r' => elements fuel (Some []) r'
            end
          else literal s
      end
  end
with members (fuel : nat) (acc : option (gmap string pyval)) (s : string)
  {struct fuel} : parsed (option pyval) :=
  match fuel with
  | O => Exhausted
  | S fuel =>
      match scanstring s with
      | Parsed key r =>
          match skip_ws r with
          | String ":" r1 =>
              match scan_once fuel (skip_ws r1) with
              | Parsed v r2 =>
                  let acc' := add_member key v acc in
                  match skip_ws r2 with
                  | String d r3 =>
                      if Ascii.eqb d "}" then Parsed (PyDict <$> acc') r3
                      else if Ascii.eqb d "," then
                        match skip_ws r3 with
                        | String q r4 =>
                            if Ascii.eqb q quote then members fuel acc' r4 else Malformed
                        | EmptyString => Malformed
                        end
                      else Malformed
                  | EmptyString => Malformed
                  end
              | Malformed => Malformed
              | Refused => Refused
              | Exhausted => Exhausted
              end
          | _ => Malformed
          end
      | Malformed => Malformed
      | Refused => Refused
      | Exhausted => Exhausted
      end
  end
with elements (fuel : nat) (acc : option (list pyval)) (s : string)
  {struct fuel} : parsed (option pyval) :=
  match fuel with
  | O => Exhausted
  | S fuel =>
      match scan_once fuel s with
      | Parsed v r =>
          let acc' := add_element v acc in
          match skip_ws r with
          | String d r1 =>
              if Ascii.eqb d "]" then Parsed (PyList <$> acc') r1
              else if Ascii.eqb d "," then elements fuel acc' (skip_ws r1)
              else Malformed
          | EmptyString => Malformed
          end
      | Malformed => Malformed
      | Refused => Refused
      | Exhausted => Exhausted
      end
  end.

Definition loads (text : string) : json_outcome :=
  match scan_once (2 * String.length text + 2) (skip_ws text) with
  | Parsed v rest =>
      match skip_ws rest, v with
      | EmptyString, Some data => Decoded data
      | EmptyString, None => JSONOther
      | String _ _, _ => JSONDecodeError
      end
  | Malformed => JSONDecodeError
  | Refused => JSONOther
  | Exhausted => JSONOther
  end.

(** A text between double quotes, to write JSON texts down. *)
Definition q (s : string) : string := String quote s +:+ String quote EmptyString.

End Json.

(** ** The contract, in the words of the specification *)

Module Contract.

Import Customer.

(** *** The data model *)

Definition valid_customer_id (v : pyval) : bool :=
  match as_int v with
  | Some z => (0 <? z)%Z
  | None => false
  end.

(** A str whose trimmed length is at least [min_length]. *)
Definition valid_text (min_length : nat) (v : pyval) : bool :=
  match v with
  | PyStr s => (min_length <=? Py.len (Py.strip s))%nat
  | _ => false
  end.

Definition separator (c : ascii) : bool :=
  Ascii.eqb c " " || Ascii.eqb c "(" || Ascii.eqb c ")" || Ascii.eqb c "-".

(** The value with spaces, parentheses and hyphens taken out. *)
Fixpoint without_separators (s : string) : string :=
  match s with
  | EmptyString => EmptyString
  | String c r =>
      if separator c then without_separators r else String c (without_separators r)
  end.

Definition valid_phone (v : pyval) : bool :=
  match v with
  | PyStr s =>
      Py.all_digits (without_separators s) && (5 <=? Py.len (without_separators s))%nat
  | _ => false
  end.

Definition tokens (s : string) : nat := length (Py.split (Py.strip s)).

Definition valid_contact_person (v : pyval) : bool :=
  valid_text 2 v &&
  match v with
  | PyStr s => (2 <=? tokens s)%nat
  | _ => false
  end.

Definition valid_value (f : field) (v : pyval) : bool :=
  match f with
  | f_customer_id => valid_customer_id v
  | f_name => valid_text 2 v
  | f_address => valid_text 5 v
  | f_phone => valid_phone v
  | f_contact_person => valid_contact_person v
  end.

(** The invariant of a record: every attribute is set and valid. *)
Definition valid (self : t) : Prop :=
  ∀ f, ∃ v, slot f self = Some v ∧ valid_value f v = true.

(** *** The operations a caller has *)

(** The validation rule of a field and its setter. *)
Definition validate (f : field) (v : pyval) : result unit :=
  match f with
  | f_customer_id => __validate_customer_id v
  | f_name => __validate_string_field v f_name 2
  | f_address => __validate_string_field v f_address 5
  | f_phone => __validate_phone v
  | f_contact_person => __validate_contact_person v
  end.

Definition setter (f : field) : pyval -> M unit :=
  match f with
  | f_customer_id => set_customer_id
  | f_name => set_name
  | f_address => set_address
  | f_phone => set_phone
  | f_contact_person => set_contact_person
  end.

Definition getter (f : field) : M pyval :=
  match f with
  | f_customer_id => get_customer_id
  | f_name => get_name
  | f_address => get_address
  | f_phone => get_phone
  | f_contact_person => get_contact_person
  end.

(** The five validations of [__validate_and_init], in the order it runs
    them; the first that fails decides the error. *)
Definition validations (a b c p k : pyval) : result unit :=
  validate f_customer_id a ;; validate f_name b ;; validate f_address c ;;
  validate f_phone p ;; validate f_contact_person k.

(** What a construction path does to the object it runs on: it assigns five
    valid values, or it raises and leaves the object as it was. *)
Inductive built_or_unchanged (self : t) : result unit * t -> Prop :=
| built a b c p k :
    valid_value f_customer_id a = true -> valid_value f_name b = true ->
    valid_value f_address c = true -> valid_value f_phone p = true ->
    valid_value f_contact_person k = true ->
    built_or_unchanged self (Ok tt, mk (Some a) (Some b) (Some c) (Some p) (Some k))
| unchanged e : built_or_unchanged self (Raise e, self).

(** A method call on an existing object. *)
Inductive call : Type :=
| call_init (args : list pyval) (kwargs : gmap string pyval)
| call_get (f : field)
| call_set (f : field) (v : pyval)
| call_str.

(** The mapping has the five required keys, bound to these values. *)
Definition binds (d : gmap string pyval)
  (customer_id name address phone contact_person : pyval) : Prop :=
  d !! "customer_id" = Some customer_id ∧ d !! "name" = Some name ∧
  d !! "address" = Some address ∧ d !! "phone" = Some phone ∧
  d !! "contact_person" = Some contact_person.

(** The keys of [required_fields] that the mapping lacks, in that order. *)
Definition absent (d : gmap string pyval) : list string :=
  List.filter (fun key => bool_decide (d !! key = None)) required_fields.

Section Calls.

Variable json_loads : string -> json_outcome.

(** The object after a call, whether the call returned or raised. *)
Definition after (k : call) (self : t) : t :=
  match k with
  | call_init args kwargs => snd (__init__ json_loads args kwargs self)
  | call_get f => snd (getter f self)
  | call_set f v => snd (setter f v self)
  | call_str => snd (__str__ self)
  end.

(** The objects a caller can hold: what a constructor call returned, and
    that object after any further calls. *)
Inductive observable : t -> Prop :=
| observable_new args kwargs self :
    new json_loads args kwargs = Ok self -> observable self
| observable_after k self :
    observable self -> observable (after k self).

End Calls.

(** The identifier [v] is refused with [e] by the validation rule, by the
    setter and by each of the four construction shapes, whatever the other
    four values are. *)
Definition customer_id_refused (json_loads : string -> json_outcome)
  (v : pyval) (e : exn) : Prop :=
  __validate_customer_id v = Raise e ∧
  (∀ self, set_customer_id v self = (Raise e, self)) ∧
  (∀ b c p k kwargs, new json_loads [v; b; c; p; k] kwargs = Raise e) ∧
  (∀ d kwargs, absent d = [] -> d !! "customer_id" = Some v ->
     new json_loads [PyDict d] kwargs = Raise e) ∧
  (∀ text d kwargs, json_loads text = Decoded (PyDict d) ->
     absent d = [] -> d !! "customer_id" = Some v ->
     new json_loads [PyStr text] kwargs = Raise e) ∧
  (∀ kwargs, absent kwargs = [] -> kwargs !! "customer_id" = Some v ->
     new json_loads [] kwargs = Raise e).

(** The errors about a field or a key, as opposed to the errors about the
    shape of the call and about the text. *)
Definition about_fields (e : exn) : bool :=
  match e with
  | InvalidArgumentError _ | FormatError | PyValueError | Unmodelled => false
  | _ => true
  end.

(** *** Two claims, read to the letter *)

(** The four shapes the specification lists for a constructor call. *)
Definition enumerated_shape (args : list pyval) (kwargs : gmap string pyval) : Prop :=
  (∃ text, args = [PyStr text] ∧ kwargs = ∅) ∨
  (∃ d, args = [PyDict d] ∧ kwargs = ∅) ∨
  (length args = 5 ∧ kwargs = ∅) ∨
  (args = [] ∧ absent kwargs = []).

(** Every call outside these shapes fails with InvalidArgumentError. *)
Definition shape_rule_as_stated (json_loads : string -> json_outcome)
  (args : list pyval) (kwargs : gmap string pyval) : Prop :=
  ¬ enumerated_shape args kwargs ->
  ∃ why, new json_loads args kwargs = Raise (InvalidArgumentError why).

(** The decimal digits "0".."9". *)
Definition decimal_digit (c : ascii) : bool :=
  let n := N_of_ascii c in ((48 <=? n) && (n <=? 57))%N.

Fixpoint all_decimal (s : string) : bool :=
  match s with
  | EmptyString => true
  | String c r => decimal_digit c && all_decimal r
  end.

(** The phone rule with "all decimal digits" and "fewer than 5 digits" taken
    literally. *)
Definition phone_rule_as_stated (s : string) : Prop :=
  let rest := without_separators s in
  (all_decimal rest = false -> __validate_phone (PyStr s) = Raise InvalidFormatError) ∧
  (all_decimal rest = true -> (Py.len rest < 5)%nat ->
   __validate_phone (PyStr s) = Raise (TooShortError f_phone 5)) ∧
  (all_decimal rest = true -> (5 <= Py.len rest)%nat ->
   __validate_phone (PyStr s) = Ok tt).

(** The value of a decimal numeral, read from the left. *)
Fixpoint decimal_value (acc : Z) (text : string) : Z :=
  match text with
  | EmptyString => acc
  | String c r => decimal_value (10 * acc + (Z.of_N (N_of_ascii c) - 48)) r
  end.

(** [text] is the decimal numeral of [z]: decimal digits only, at least one,
    no zero in front, and the value [z]. *)
Definition decimal_numeral (text : string) (z : Z) : Prop :=
  text ≠ EmptyString ∧ all_decimal text = true ∧
  String.prefix "0" text = false ∧ decimal_value 0 text = z.

(** How the identifier of a valid record reads in a text. *)
Definition renders (a : pyval) (text : string) : Prop :=
  match a with
  | PyInt z => decimal_numeral text z
  | PyBool true => text = "True"
  | _ => False
  end.

(** The identifier is no int of more digits than the interpreter turns into
    text. *)
Definition within_str_limit (self : t) : Prop :=
  ∀ z, __customer_id self = Some (PyInt z) ->
       (Py.int_digits z <= Py.int_max_str_digits)%nat.

(** Every valid record has a textual representation. *)
Definition str_rule_as_stated (self : t) : Prop :=
  valid self -> ∃ text, fst (__str__ self) = Ok text.

End Contract.

(** ** Sample data *)

Module Sample.

Definition mapping : gmap string pyval :=
  <["customer_id" := PyInt 7]> (<["name" := PyStr "AB"]>
  (<["address" := PyStr "Main street 5"]> (<["phone" := PyStr "12-34(56)"]>
  (<["contact_person" := PyStr "Ivan Ivanov"]> ∅)))).

(** The text
    [{"customer_id": 7, "name": "AB", "address": "Main street 5",
      "phone": "12-34(56)", "contact_person": "Ivan Ivanov"}]. *)
Definition text : string :=
  "{" +:+ Json.q "customer_id" +:+ ": 7, " +:+
  Json.q "name" +:+ ": " +:+ Json.q "AB" +:+ ", " +:+
  Json.q "address" +:+ ": " +:+ Json.q "Main street 5" +:+ ", " +:+
  Json.q "phone" +:+ ": " +:+ Json.q "12-34(56)" +:+ ", " +:+
  Json.q "contact_person" +:+ ": " +:+ Json.q "Ivan Ivanov" +:+ "}".

Definition record : Customer.t :=
  Customer.mk (Some (PyInt 7)) (Some (PyStr "AB")) (Some (PyStr "Main street 5"))
    (Some (PyStr "12-34(56)")) (Some (PyStr "Ivan Ivanov")).

(** The mapping without its phone, and its text. *)
Definition no_phone : gmap string pyval := delete "phone" mapping.

Definition text_no_phone : string :=
  "{" +:+ Json.q "customer_id" +:+ ": 7, " +:+
  Json.q "name" +:+ ": " +:+ Json.q "AB" +:+ ", " +:+
  Json.q "address" +:+ ": " +:+ Json.q "Main street 5" +:+ ", " +:+
  Json.q "contact_person" +:+ ": " +:+ Json.q "Ivan Ivanov" +:+ "}".

(** The mapping with the identifier 0, and its text. *)
Definition zero_id : gmap string pyval := <["customer_id" := PyInt 0]> mapping.

Definition text_zero_id : string :=
  "{" +:+ Json.q "customer_id" +:+ ": 0, " +:+
  Json.q "name" +:+ ": " +:+ Json.q "AB" +:+ ", " +:+
  Json.q "address" +:+ ": " +:+ Json.q "Main street 5" +:+ ", " +:+
  Json.q "phone" +:+ ": " +:+ Json.q "12-34(56)" +:+ ", " +:+
  Json.q "contact_person" +:+ ": " +:+ Json.q "Ivan Ivanov" +:+ "}".

(** The record with the identifier 10^4300, which has 4301 digits. *)
Definition long_id : Customer.t :=
  Customer.mk (Some (PyInt (10 ^ 4300))) (Some (PyStr "AB"))
    (Some (PyStr "Main street 5")) (Some (PyStr "12-34(56)"))
    (Some (PyStr "Ivan Ivanov")).

(** Five times the superscript two, U+00B2. *)
Definition superscripts : string :=
  String "178" (String "178" (String "178" (String "178" (String "178" EmptyString)))).

End Sample.

(** ** Notions for the behaviour of the methods *)

Module Behaviour.

Import Customer Contract.

(** Every character of [s] is whitespace; the empty str qualifies. *)
Fixpoint all_space (s : string) : bool :=
  match s with
  | EmptyString => true
  | String c r => Py.isspace c && all_space r
  end.

(** Every character of [s] is a digit or one of the four separators. *)
Fixpoint only_phone_chars (s : string) : bool :=
  match s with
  | EmptyString => true
  | String c r => (Py.isdigit_char c || separator c) && only_phone_chars r
  end.

(** The number of digits in [s]. *)
Fixpoint digits_in (s : string) : nat :=
  match s with
  | EmptyString => O
  | String c r => if Py.isdigit_char c then S (digits_in r) else digits_in r
  end.

(** The errors the validation of a field has a [raise] for. *)
Definition may_raise (f : field) : list exn :=
  match f with
  | f_customer_id => [TypeError f_customer_id; RangeError]
  | f_name => [TypeError f_name; EmptyValueError f_name; TooShortError f_name 2]
  | f_address =>
      [TypeError f_address; EmptyValueError f_address; TooShortError f_address 5]
  | f_phone => [TypeError f_phone; InvalidFormatError; TooShortError f_phone 5]
  | f_contact_person =>
      [TypeError f_contact_person; EmptyValueError f_contact_person;
       TooShortError f_contact_person 2; MalformedNameError]
  end.

(** The five setters called one after the other. *)
Definition set_all (a b c p k : pyval) : M unit :=
  set_customer_id a ;; set_name b ;; set_address c ;; set_phone p ;;
  set_contact_person k.

(** A construction path either builds one valid record, whatever object it
    runs on, or raises one error and leaves every object as it was. *)
Definition all_or_nothing (m : M unit) : Prop :=
  (∃ built, valid built ∧ ∀ self, m self = (Ok tt, built)) ∨
  (∃ e, ∀ self, m self = (Raise e, self)).

(** A decoded value that is neither a str nor a container. *)
Definition scalar (v : pyval) : bool :=
  match v with
  | PyNone | PyBool _ | PyInt _ | PyFloat => true
  | PyStr _ | PyList _ | PyDict _ => false
  end.

(** The required keys that are no element of the list [l], and those that
    do not occur in the str [s]. *)
Definition not_elements (l : list pyval) : list string :=
  List.filter (fun key => negb (existsb (Py.eq_str key) l)) required_fields.

Definition not_substrings (s : string) : list string :=
  List.filter (fun key => negb (Py.contains key s)) required_fields.

End Behaviour.

(** ** Proofs *)

Import Customer Contract.

(** *** Validation rules and the data model *)

Lemma clean_without_separators s : clean s = without_separators s.
Proof.
  unfold clean. induction s as [|c r IH]; [reflexivity|].
  cbn [Py.remove without_separators]. unfold separator.
  destruct (Ascii.eqb_spec c " ") as [->|H1]; [exact IH|].
  cbn [Py.remove orb].
  destruct (Ascii.eqb_spec c "(") as [->|H2]; [exact IH|].
  cbn [Py.remove orb].
  destruct (Ascii.eqb_spec c ")") as [->|H3]; [exact IH|].
  cbn [Py.remove orb].
  destruct (Ascii.eqb_spec c "-") as [->|H4]; [exact IH|].
  cbn [orb]. now rewrite IH.
Qed.

Lemma isdigit_all_digits s :
  Py.isdigit s = true ↔ s ≠ EmptyString ∧ Py.all_digits s = true.
Proof. destruct s; cbn; intuition congruence. Qed.

Lemma validate_customer_id_ok v :
  __validate_customer_id v = Ok tt ↔ valid_customer_id v = true.
Proof.
  unfold __validate_customer_id, valid_customer_id.
  destruct (as_int v) as [z|]; [|intuition discriminate].
  destruct (Z.leb_spec z 0), (Z.ltb_spec 0 z); intuition (discriminate || lia).
Qed.

Lemma validate_string_field_ok v f n :
  (0 < n)%nat ->
  __validate_string_field v f n = Ok tt ↔ valid_text n v = true.
Proof.
  intros Hn. unfold __validate_string_field, valid_text, Py.len.
  destruct v; try (intuition discriminate).
  case_bool_decide as He.
  - rewrite He. cbn. destruct (Nat.leb_spec n 0); intuition (discriminate || lia).
  - destruct (Nat.ltb_spec (String.length (Py.strip s)) n),
      (Nat.leb_spec n (String.length (Py.strip s)));
      intuition (discriminate || lia).
Qed.

Lemma validate_phone_ok v : __validate_phone v = Ok tt ↔ valid_phone v = true.
Proof.
  unfold __validate_phone, valid_phone, Py.len.
  destruct v; try (intuition discriminate).
  rewrite clean_without_separators.
  set (rest := without_separators s).
  rewrite andb_true_iff, Nat.leb_le.
  destruct (Py.isdigit rest) eqn:Hd; cbn [negb].
  - apply isdigit_all_digits in Hd as [_ Hd].
    destruct (Nat.ltb_spec (String.length rest) 5); intuition (discriminate || lia).
  - split; [discriminate|]. intros [Ha Hl].
    assert (Py.isdigit rest = true); [|congruence].
    apply isdigit_all_digits. split; [|exact Ha].
    intros E. rewrite E in Hl. cbn in Hl. lia.
Qed.

Lemma validate_contact_person_ok v :
  __validate_contact_person v = Ok tt ↔ valid_contact_person v = true.
Proof.
  unfold __validate_contact_person, valid_contact_person, tokens.
  rewrite andb_true_iff, <- (validate_string_field_ok v f_contact_person 2) by lia.
  destruct (__validate_string_field v f_contact_person 2) as [[]|e] eqn:Hs; cbn.
  - destruct v; try discriminate Hs.
    destruct (length (Py.split (Py.strip s))) as [|[|n]]; cbn;
      intuition discriminate.
  - intuition discriminate.
Qed.

Lemma validate_ok f v : validate f v = Ok tt ↔ valid_value f v = true.
Proof.
  destruct f; cbn [validate valid_value].
  - apply validate_customer_id_ok.
  - apply validate_string_field_ok; lia.
  - apply validate_string_field_ok; lia.
  - apply validate_phone_ok.
  - apply validate_contact_person_ok.
Qed.

Lemma validate_raises f v :
  valid_value f v = false -> ∃ e, validate f v = Raise e.
Proof.
  intros Hv. destruct (validate f v) as [[]|e] eqn:Hr; [|eauto].
  apply validate_ok in Hr. congruence.
Qed.

(** Running the methods. *)

Lemma lift_then_setattr (r : result unit) f v self :
  (lift r ;; setattr f v) self =
    match r with
    | Ok _ => (Ok tt, assign f v self)
    | Raise e => (Raise e, self)
    end.
Proof. now destruct r. Qed.

Lemma setter_run f v self :
  setter f v self =
    match validate f v with
    | Ok _ => (Ok tt, assign f v self)
    | Raise e => (Raise e, self)
    end.
Proof. destruct f; apply lift_then_setattr. Qed.

Lemma getter_run f self :
  getter f self =
    match slot f self with
    | Some v => (Ok v, self)
    | None => (Raise AttributeError, self)
    end.
Proof. now destruct f. Qed.

Lemma validate_and_init_run a b c d e self :
  __validate_and_init a b c d e self =
    match validations a b c d e with
    | Ok _ => (Ok tt, mk (Some a) (Some b) (Some c) (Some d) (Some e))
    | Raise x => (Raise x, self)
    end.
Proof.
  unfold __validate_and_init, validations. cbn [validate].
  destruct (__validate_customer_id a) as [[]|?]; [|reflexivity].
  destruct (__validate_string_field b f_name 2) as [[]|?]; [|reflexivity].
  destruct (__validate_string_field c f_address 5) as [[]|?]; [|reflexivity].
  destruct (__validate_phone d) as [[]|?]; [|reflexivity].
  destruct (__validate_contact_person e) as [[]|?]; reflexivity.
Qed.

Lemma validations_ok a b c d e :
  validations a b c d e = Ok tt ↔
  valid_value f_customer_id a = true ∧ valid_value f_name b = true ∧
  valid_value f_address c = true ∧ valid_value f_phone d = true ∧
  valid_value f_contact_person e = true.
Proof.
  rewrite <- !validate_ok. unfold validations.
  destruct (validate f_customer_id a) as [[]|?]; [|cbn; intuition discriminate].
  destruct (validate f_name b) as [[]|?]; [|cbn; intuition discriminate].
  destruct (validate f_address c) as [[]|?]; [|cbn; intuition discriminate].
  destruct (validate f_phone d) as [[]|?]; [|cbn; intuition discriminate].
  destruct (validate f_contact_person e) as [[]|?]; cbn; intuition discriminate.
Qed.

Lemma missing_fields_dict fields d :
  missing_fields fields (PyDict d) =
    Ok (List.filter (fun key => bool_decide (d !! key = None)) fields).
Proof.
  induction fields as [|f fs IH]; [reflexivity|].
  cbn [missing_fields List.filter Py.not_in]. rewrite IH. reflexivity.
Qed.

Lemma missing_fields_not_dict fields data :
  (∃ m, missing_fields fields data = Ok m) ∨
  missing_fields fields data = Raise PyTypeError.
Proof.
  induction fields as [|f fs IH]; [left; eexists; reflexivity|].
  cbn [missing_fields].
  destruct (Py.not_in f data) as [b|e] eqn:Hn.
  - destruct IH as [[m ->]| ->]; [left; eexists; reflexivity|right; reflexivity].
  - right. destruct data; cbn in Hn; try discriminate Hn;
      injection Hn as <-; reflexivity.
Qed.

Lemma absent_nil d :
  absent d = [] ↔ ∃ a b c p k, binds d a b c p k.
Proof.
  unfold absent, binds, required_fields. cbn [List.filter]. split.
  - intros H.
    destruct (d !! "customer_id") as [a|]; [|discriminate H].
    destruct (d !! "name") as [b|]; [|discriminate H].
    destruct (d !! "address") as [c|]; [|discriminate H].
    destruct (d !! "phone") as [p|]; [|discriminate H].
    destruct (d !! "contact_person") as [k|]; [|discriminate H].
    eauto 10.
  - intros (a & b & c & p & k & -> & -> & -> & -> & ->). reflexivity.
Qed.

Lemma init_from_dict_missing d self :
  absent d ≠ [] ->
  __init_from_dict (PyDict d) self = (Raise (MissingFieldError (absent d)), self).
Proof.
  intros H. unfold __init_from_dict, mbind, M_bind, lift.
  rewrite missing_fields_dict. fold (absent d).
  destruct (absent d); [congruence|reflexivity].
Qed.

Lemma init_from_dict_binds d a b c p k self :
  binds d a b c p k ->
  __init_from_dict (PyDict d) self = __validate_and_init a b c p k self.
Proof.
  intros Hb. assert (Ha : absent d = []) by (apply absent_nil; eauto 10).
  destruct Hb as (H1 & H2 & H3 & H4 & H5).
  unfold __init_from_dict, mbind at 1, M_bind at 1, lift at 1.
  rewrite missing_fields_dict. fold (absent d). rewrite Ha.
  unfold mbind, M_bind, lift, Py.getitem. rewrite H1, H2, H3, H4, H5.
  reflexivity.
Qed.

Lemma init_from_kwargs_dict kwargs : __init_from_kwargs kwargs = __init_from_dict (PyDict kwargs).
Proof. reflexivity. Qed.

(** What [__init_from_dict] can do on any decoded value. *)
Lemma init_from_dict_cases data self :
  (∃ d a b c p k, data = PyDict d ∧ binds d a b c p k ∧
     __init_from_dict data self = __validate_and_init a b c p k self) ∨
  (∃ m, __init_from_dict data self = (Raise (MissingFieldError m), self)) ∨
  __init_from_dict data self = (Raise PyTypeError, self).
Proof.
  destruct data as [| | | | s | l | d].
  1-4: right; right; reflexivity.
  3: { destruct (absent d) eqn:Ha.
       - apply absent_nil in Ha as (a & b & c & p & k & Hb).
         left. exists d, a, b, c, p, k. eauto using init_from_dict_binds.
       - right; left. eexists. apply init_from_dict_missing. congruence. }
  all: unfold __init_from_dict, mbind at 1, M_bind at 1, lift at 1;
    match goal with |- context [missing_fields ?fs ?x] =>
      destruct (missing_fields_not_dict fs x) as [[m ->]| ->] end;
    [destruct m; [right; right; reflexivity | right; left; eexists; reflexivity]
    | right; right; reflexivity].
Qed.

Ltac raised :=
  let H := fresh in
  intros H; first [discriminate H | injection H as H; subst; reflexivity].

Lemma validate_about_fields f v e : validate f v = Raise e -> about_fields e = true.
Proof.
  assert (Hsf : forall g n, __validate_string_field v g n = Raise e ->
                            about_fields e = true).
  { intros g n. unfold __validate_string_field.
    destruct v; try raised.
    case_bool_decide; [|destruct (_ <? _)%nat]; raised. }
  destruct f; cbn [validate]; eauto.
  - unfold __validate_customer_id. destruct (as_int v); [destruct (_ <=? _)%Z|]; raised.
  - unfold __validate_phone. destruct v; try raised.
    cbv zeta. destruct (negb _); [|destruct (_ <? _)%nat]; raised.
  - unfold __validate_contact_person.
    destruct (__validate_string_field v f_contact_person 2) as [[]|x] eqn:Hs; cbn.
    + destruct v; try raised.
      destruct (_ <=? _)%nat; raised.
    + intros [= <-]. eauto.
Qed.

Lemma validations_about_fields a b c p k e :
  validations a b c p k = Raise e -> about_fields e = true.
Proof.
  unfold validations, mbind, result_bind.
  destruct (validate f_customer_id a) as [[]|?] eqn:H1;
    [|intros [= <-]; eauto using validate_about_fields].
  destruct (validate f_name b) as [[]|?] eqn:H2;
    [|intros [= <-]; eauto using validate_about_fields].
  destruct (validate f_address c) as [[]|?] eqn:H3;
    [|intros [= <-]; eauto using validate_about_fields].
  destruct (validate f_phone p) as [[]|?] eqn:H4;
    [|intros [= <-]; eauto using validate_about_fields].
  intros H5. eauto using validate_about_fields.
Qed.

Lemma validate_and_init_cases a b c p k self :
  built_or_unchanged self (__validate_and_init a b c p k self).
Proof.
  rewrite validate_and_init_run.
  destruct (validations a b c p k) as [[]|e] eqn:Hv; [|constructor].
  apply validations_ok in Hv as (? & ? & ? & ? & ?). now constructor.
Qed.

Lemma init_from_dict_built data self :
  built_or_unchanged self (__init_from_dict data self).
Proof.
  destruct (init_from_dict_cases data self)
    as [(d & a & b & c & p & k & _ & _ & ->)|[[m ->]| ->]];
    [apply validate_and_init_cases|constructor..].
Qed.

Lemma init_from_dict_about_fields data self e s' :
  __init_from_dict data self = (Raise e, s') -> about_fields e = true.
Proof.
  destruct (init_from_dict_cases data self)
    as [(d & a & b & c & p & k & _ & _ & ->)|[[m ->]| ->]].
  - rewrite validate_and_init_run.
    destruct (validations a b c p k) as [[]|x] eqn:Hv; [discriminate|].
    intros [= <- _]. eauto using validations_about_fields.
  - intros [= <- _]. reflexivity.
  - intros [= <- _]. reflexivity.
Qed.

Lemma str_unchanged self : snd (__str__ self) = self.
Proof.
  unfold __str__, mbind, M_bind, getattr, lift, mret, M_ret.
  destruct (slot f_customer_id self) as [a|]; [|reflexivity].
  destruct (slot f_name self) as [b|]; [|reflexivity].
  destruct (slot f_phone self) as [p|]; [|reflexivity].
  destruct (slot f_contact_person self) as [k|]; [|reflexivity].
  destruct (Py.format a); [|reflexivity].
  destruct (Py.format b); [|reflexivity].
  destruct (Py.format p); [|reflexivity].
  destruct (Py.format k); reflexivity.
Qed.

Section Construction.

Variable json_loads : string -> json_outcome.

Lemma init_built args kwargs self :
  built_or_unchanged self (__init__ json_loads args kwargs self).
Proof.
  unfold __init__.
  destruct args as [|a0 [|a1 [|a2 [|a3 [|a4 [|a5 rest]]]]]];
    try (case_bool_decide; [constructor|apply init_from_dict_built]).
  - destruct a0; try constructor; try apply init_from_dict_built.
    destruct (json_loads s); [apply init_from_dict_built|constructor..].
  - apply validate_and_init_cases.
Qed.

Lemma built_valid self r :
  built_or_unchanged self r -> valid self -> valid (snd r).
Proof.
  intros [a b c p k ? ? ? ? ?|e] Hs; [|exact Hs].
  intros []; cbn; eauto.
Qed.

Lemma new_valid args kwargs self :
  new json_loads args kwargs = Ok self -> valid self.
Proof.
  unfold new. destruct (init_built args kwargs blank) as [a b c p k ? ? ? ? ?|e];
    [|discriminate].
  intros [= <-]. intros []; cbn; eauto.
Qed.

Lemma assign_valid f v self :
  valid_value f v = true -> valid self -> valid (assign f v self).
Proof.
  intros Hv Hs g. destruct (Hs g) as (w & Hw & Hvw).
  destruct f, g; cbn in *; eauto.
Qed.

Lemma after_valid k self : valid self -> valid (after json_loads k self).
Proof.
  intros Hs. destruct k as [args kwargs|f|f v|]; cbn [after].
  - apply (built_valid self); [apply init_built|exact Hs].
  - rewrite getter_run. now destruct (slot f self).
  - rewrite setter_run. destruct (validate f v) as [[]|e] eqn:Hv; [|exact Hs].
    apply assign_valid; [now apply validate_ok|exact Hs].
  - now rewrite str_unchanged.
Qed.

End Construction.

Lemma new_run json_loads args kwargs :
  new json_loads args kwargs =
    match fst (__init__ json_loads args kwargs blank) with
    | Ok _ => Ok (snd (__init__ json_loads args kwargs blank))
    | Raise e => Raise e
    end.
Proof. unfold new. now destruct (__init__ _ _ _ _) as [[[]|e] s]. Qed.

Lemma init_ignores_kwargs json_loads args kwargs :
  length args = 1 ∨ length args = 5 ->
  __init__ json_loads args kwargs = __init__ json_loads args ∅.
Proof.
  destruct args as [|a0 [|a1 [|a2 [|a3 [|a4 [|a5 rest]]]]]]; cbn; intros [|]; 
    try discriminate; try lia; reflexivity.
Qed.

Lemma init_named json_loads args kwargs :
  length args ≠ 1 -> length args ≠ 5 -> kwargs ≠ ∅ ->
  __init__ json_loads args kwargs = __init_from_dict (PyDict kwargs).
Proof.
  intros H1 H5 Hk. unfold __init__.
  destruct args as [|a0 [|a1 [|a2 [|a3 [|a4 [|a5 rest]]]]]]; cbn in H1, H5;
    try lia; now rewrite bool_decide_eq_false_2.
Qed.

Lemma binds_nonempty d a b c p k : binds d a b c p k -> d ≠ ∅.
Proof. intros (H & _) ->. now rewrite lookup_empty in H. Qed.

(** C2. Every record a caller can hold has five valid fields: the
    constructors return only valid records, and a valid record stays valid
    through every later call, a setter or a second [__init__] that fails
    included. *)
Theorem observable_records_are_valid json_loads self :
  observable json_loads self -> valid self.
Proof. induction 1; eauto using new_valid, after_valid. Qed.

(** C3. A setter given an invalid value raises, and the object after the call
    is the object before it: no attribute has changed, the targeted one
    included. *)
Theorem setter_rejects_without_change f v self :
  valid self -> valid_value f v = false ->
  ∃ e, setter f v self = (Raise e, self) ∧
       ∀ g, slot g (snd (setter f v self)) = slot g self.
Proof.
  intros _ Hv. destruct (validate_raises f v Hv) as [e He].
  exists e. rewrite setter_run, He. auto.
Qed.

(** C1. For five valid values, a mapping that binds them to the five keys, a
    text that decodes to this mapping, the five values as positional
    arguments and the mapping's entries as named parameters all construct the
    same record, and its getters return the five values. *)
Theorem four_constructions_agree json_loads d text a b c p k :
  valid_value f_customer_id a = true -> valid_value f_name b = true ->
  valid_value f_address c = true -> valid_value f_phone p = true ->
  valid_value f_contact_person k = true ->
  binds d a b c p k ->
  json_loads text = Decoded (PyDict d) ->
  let self := mk (Some a) (Some b) (Some c) (Some p) (Some k) in
    new json_loads [PyDict d] ∅ = Ok self ∧
    new json_loads [PyStr text] ∅ = Ok self ∧
    new json_loads [a; b; c; p; k] ∅ = Ok self ∧
    new json_loads [] d = Ok self ∧
    get_customer_id self = (Ok a, self) ∧ get_name self = (Ok b, self) ∧
    get_address self = (Ok c, self) ∧ get_phone self = (Ok p, self) ∧
    get_contact_person self = (Ok k, self).
Proof.
  intros Ha Hb Hc Hp Hk Hd Ht.
  assert (Hv : validations a b c p k = Ok tt) by now apply validations_ok.
  assert (Hrun : ∀ s, __validate_and_init a b c p k s =
                      (Ok tt, mk (Some a) (Some b) (Some c) (Some p) (Some k))).
  { intros s. now rewrite validate_and_init_run, Hv. }
  repeat split.
  - rewrite new_run. cbn [__init__]. now rewrite (init_from_dict_binds _ _ _ _ _ _ _ Hd), Hrun.
  - rewrite new_run. cbn [__init__]. rewrite Ht.
    now rewrite (init_from_dict_binds _ _ _ _ _ _ _ Hd), Hrun.
  - rewrite new_run. cbn [__init__]. now rewrite Hrun.
  - rewrite new_run, init_named; cbn; try lia; eauto using binds_nonempty.
    now rewrite (init_from_dict_binds _ _ _ _ _ _ _ Hd), Hrun.
Qed.

Lemma new_raise_inv json_loads args kwargs e :
  new json_loads args kwargs = Raise e ->
  __init__ json_loads args kwargs blank = (Raise e, blank).
Proof.
  unfold new. destruct (init_built json_loads args kwargs blank); [discriminate|].
  now intros [= ->].
Qed.

Lemma new_named json_loads args kwargs :
  length args ≠ 1 -> length args ≠ 5 -> kwargs ≠ ∅ ->
  new json_loads args kwargs = new json_loads [] kwargs.
Proof.
  intros H1 H5 Hk. unfold new. rewrite !init_named; cbn; try lia; auto.
Qed.

(** C4, as the code has it.  The constructor looks at the number of positional
    arguments first.  With one, it takes the text or the mapping path and
    ignores named parameters; with five, it takes the positional path and
    ignores named parameters; with any other number it builds the record from
    the named parameters as soon as there is one, ignoring the positional
    arguments.  InvalidArgumentError is raised in exactly two cases: a single
    argument that is neither a str nor a dict, and a number of positional
    arguments other than one and five together with no named parameter. *)
Theorem constructor_dispatch json_loads args kwargs :
  ((∃ why, new json_loads args kwargs = Raise (InvalidArgumentError why)) ↔
   (∃ arg, args = [arg] ∧ (∀ s, arg ≠ PyStr s) ∧ (∀ d, arg ≠ PyDict d)) ∨
   (length args ≠ 1 ∧ length args ≠ 5 ∧ kwargs = ∅)) ∧
  (length args = 1 ∨ length args = 5 ->
   new json_loads args kwargs = new json_loads args ∅) ∧
  (length args ≠ 1 -> length args ≠ 5 -> kwargs ≠ ∅ ->
   new json_loads args kwargs = new json_loads [] kwargs).
Proof.
  split; [|split].
  - split.
    + intros [why Hn]. apply new_raise_inv in Hn. revert Hn. unfold __init__.
      destruct args as [|a0 [|a1 [|a2 [|a3 [|a4 [|a5 rest]]]]]];
        try (case_bool_decide as Hk;
             [intros _; right; cbn; repeat split; (lia || exact Hk)
             |intros Hn; apply init_from_dict_about_fields in Hn; discriminate Hn]).
      * destruct a0; try (intros _; left; eexists; repeat split; congruence).
        -- destruct (json_loads s); [|discriminate..].
           intros Hn; apply init_from_dict_about_fields in Hn; discriminate Hn.
        -- intros Hn; apply init_from_dict_about_fields in Hn; discriminate Hn.
      * rewrite validate_and_init_run.
        destruct (validations a0 a1 a2 a3 a4) eqn:Hv; [discriminate|].
        intros [= ->]. apply validations_about_fields in Hv. discriminate Hv.
    + intros [(arg & -> & Hs & Hd)|(H1 & H5 & ->)].
      * exists UnsupportedArgumentType.
        destruct arg; try reflexivity; [now destruct (Hs s)|now destruct (Hd d)].
      * exists WrongArgumentCount.
        destruct args as [|a0 [|a1 [|a2 [|a3 [|a4 [|a5 rest]]]]]]; cbn in H1, H5;
          try lia; reflexivity.
  - intros H. unfold new. now rewrite init_ignores_kwargs.
  - apply new_named.
Qed.

Lemma decimal_is_digit c : decimal_digit c = true -> Py.isdigit_char c = true.
Proof. unfold decimal_digit, Py.isdigit_char. cbv zeta. intros ->. reflexivity. Qed.

Lemma all_decimal_all_digits s : all_decimal s = true -> Py.all_digits s = true.
Proof.
  induction s as [|c r IH]; [reflexivity|]. cbn.
  rewrite !andb_true_iff. intros [Hc Hr]. auto using decimal_is_digit.
Qed.

Lemma validate_phone_run s :
  __validate_phone (PyStr s) =
    let rest := without_separators s in
    if negb (Py.isdigit rest) then Raise InvalidFormatError
    else if (Py.len rest <? 5)%nat then Raise (TooShortError f_phone 5)
    else Ok tt.
Proof. unfold __validate_phone. now rewrite clean_without_separators. Qed.

(** C5, as the code has it.  Phone validation takes the spaces, parentheses
    and hyphens out of the value, and nothing else.  It raises
    InvalidFormatError when what remains is empty or holds a character that
    [str.isdigit] rejects; the digits of [str.isdigit] are the decimal digits
    and also the superscript digits.  It raises TooShortError when what
    remains is made of one to four digits.  Otherwise it succeeds, and then
    [set_phone] and the constructor store the value as it was given, which
    [get_phone] returns.  When it raises, [set_phone] raises the same error
    and changes nothing, and so does the constructor once the identifier,
    the name and the address have passed. *)
Theorem phone_rule s :
  let rest := without_separators s in
  clean s = rest ∧
  (rest = EmptyString ∨ Py.all_digits rest = false ->
   __validate_phone (PyStr s) = Raise InvalidFormatError) ∧
  (rest ≠ EmptyString -> Py.all_digits rest = true -> (Py.len rest < 5)%nat ->
   __validate_phone (PyStr s) = Raise (TooShortError f_phone 5)) ∧
  (Py.all_digits rest = true -> (5 <= Py.len rest)%nat ->
   __validate_phone (PyStr s) = Ok tt ∧
   (∀ self, set_phone (PyStr s) self = (Ok tt, assign f_phone (PyStr s) self) ∧
            get_phone (assign f_phone (PyStr s) self)
            = (Ok (PyStr s), assign f_phone (PyStr s) self)) ∧
   (∀ json_loads a b c k kwargs self,
      new json_loads [a; b; c; PyStr s; k] kwargs = Ok self ->
      get_phone self = (Ok (PyStr s), self))) ∧
  (∀ e, __validate_phone (PyStr s) = Raise e ->
   (∀ self, set_phone (PyStr s) self = (Raise e, self)) ∧
   (∀ json_loads a b c k kwargs,
      validate f_customer_id a = Ok tt -> validate f_name b = Ok tt ->
      validate f_address c = Ok tt ->
      new json_loads [a; b; c; PyStr s; k] kwargs = Raise e)) ∧
  (all_decimal rest = true -> Py.all_digits rest = true).
Proof.
  cbv zeta. split; [apply clean_without_separators|].
  pose proof (validate_phone_run s) as Hrun. cbv zeta in Hrun. unfold Py.len in *.
  set (rest := without_separators s) in *.
  split; [|split; [|split; [|split]]].
  - rewrite Hrun. intros [E|Hd].
    + now rewrite E.
    + destruct rest; [reflexivity|]. cbn [Py.isdigit]. now rewrite Hd.
  - rewrite Hrun. intros Hne Hd Hl. destruct rest as [|c r]; [congruence|].
    cbn [Py.isdigit]. rewrite Hd. cbn [negb].
    now apply Nat.ltb_lt in Hl as ->.
  - intros Hd Hl.
    assert (Hv : __validate_phone (PyStr s) = Ok tt).
    { rewrite Hrun. destruct rest as [|c r]; [cbn in Hl; lia|].
      cbn [Py.isdigit]. rewrite Hd. cbn [negb].
      destruct (Nat.ltb_spec (String.length (String c r)) 5); [lia|reflexivity]. }
    repeat split; [exact Hv| |].
    + unfold set_phone. now rewrite lift_then_setattr, Hv.
    + intros json_loads a b c k kwargs self. rewrite new_run. cbn [__init__].
      rewrite validate_and_init_run.
      destruct (validations a b c (PyStr s) k) as [[]|]; [|discriminate].
      now intros [= <-].
  - intros e He. split.
    + intros self. unfold set_phone. now rewrite lift_then_setattr, He.
    + intros json_loads a b c k kwargs Ha Hb Hc. rewrite new_run. cbn [__init__].
      rewrite validate_and_init_run. unfold validations. rewrite Ha, Hb, Hc.
      cbn [validate]. now rewrite He.
  - apply all_decimal_all_digits.
Qed.

(** Membership of a str in a list of values, as [in] tests it. *)
Lemma existsb_eq_str key l :
  existsb (Py.eq_str key) l = true ↔ PyStr key ∈ l.
Proof.
  rewrite existsb_exists. split.
  - intros (x & Hx & He). destruct x; try discriminate He.
    cbn in He. apply String.eqb_eq in He as ->. now apply list_elem_of_In.
  - intros H. exists (PyStr key). split; [now apply list_elem_of_In|].
    cbn. apply String.eqb_refl.
Qed.

(** C6. A mapping that lacks one of the five required keys, a text that decodes
    to such a mapping, and named parameters that lack one, are refused with
    MissingFieldError; the error lists exactly the required keys that are
    absent, whatever the values of the keys that are present. *)
Theorem missing_keys_are_reported json_loads d kwargs :
  (∃ key, key ∈ required_fields ∧ d !! key = None) ->
  new json_loads [PyDict d] kwargs = Raise (MissingFieldError (absent d)) ∧
  (∀ text, json_loads text = Decoded (PyDict d) ->
     new json_loads [PyStr text] kwargs = Raise (MissingFieldError (absent d))) ∧
  (d ≠ ∅ -> new json_loads [] d = Raise (MissingFieldError (absent d))) ∧
  (∀ key, key ∈ absent d ↔ key ∈ required_fields ∧ d !! key = None).
Proof.
  intros (key & Hr & Hk).
  assert (Hin : ∀ x, x ∈ absent d ↔ x ∈ required_fields ∧ d !! x = None).
  { intros x. unfold absent. rewrite !list_elem_of_In, filter_In.
    now rewrite bool_decide_eq_true. }
  assert (Hne : absent d ≠ []).
  { intros E. assert (H : key ∈ absent d) by now apply Hin.
    rewrite E in H. inversion H. }
  repeat split; try (apply Hin; assumption); try (now apply Hin).
  - rewrite new_run. cbn [__init__]. now rewrite init_from_dict_missing.
  - intros text Ht. rewrite new_run. cbn [__init__]. rewrite Ht.
    now rewrite init_from_dict_missing.
  - intros Hd. rewrite new_run, init_named; cbn; try lia; auto.
    now rewrite init_from_dict_missing.
Qed.

Lemma validations_customer_id v b c p k e :
  __validate_customer_id v = Raise e -> validations v b c p k = Raise e.
Proof. unfold validations. cbn [validate]. now intros ->. Qed.

Lemma customer_id_refused_intro json_loads v e :
  __validate_customer_id v = Raise e -> customer_id_refused json_loads v e.
Proof.
  intros He.
  assert (Hpos : ∀ b c p k s, __validate_and_init v b c p k s = (Raise e, s)).
  { intros. now rewrite validate_and_init_run, (validations_customer_id _ _ _ _ _ _ He). }
  assert (Hdict : ∀ d s, absent d = [] -> d !! "customer_id" = Some v ->
                         __init_from_dict (PyDict d) s = (Raise e, s)).
  { intros d s Ha Hv. apply absent_nil in Ha as (a & b & c & p & k & Hb).
    rewrite (init_from_dict_binds _ _ _ _ _ _ _ Hb).
    destruct Hb as (Hb & _). rewrite Hv in Hb. injection Hb as <-. apply Hpos. }
  repeat split.
  - exact He.
  - intros self. unfold set_customer_id. now rewrite lift_then_setattr, He.
  - intros. rewrite new_run. cbn [__init__]. now rewrite Hpos.
  - intros d kwargs Ha Hv. rewrite new_run. cbn [__init__]. now rewrite Hdict.
  - intros text d kwargs Ht Ha Hv. rewrite new_run. cbn [__init__]. rewrite Ht.
    now rewrite Hdict.
  - intros kwargs Ha Hv. rewrite new_run, init_named; cbn; try lia.
    + now rewrite Hdict.
    + intros ->. now rewrite lookup_empty in Hv.
Qed.

(** C7. A customer identifier that is not of an integer type is refused with
    TypeError, and one that is an integer not above zero with RangeError: by
    the validation rule, by [set_customer_id], and by the positional, mapping,
    text and named-parameter constructions, whatever the other four values. *)
Theorem customer_id_rule json_loads v :
  (as_int v = None -> customer_id_refused json_loads v (TypeError f_customer_id)) ∧
  (∀ z, as_int v = Some z -> (z <= 0)%Z -> customer_id_refused json_loads v RangeError).
Proof.
  split.
  - intros Hv. apply customer_id_refused_intro.
    unfold __validate_customer_id. now rewrite Hv.
  - intros z Hv Hz. apply customer_id_refused_intro.
    unfold __validate_customer_id. rewrite Hv.
    now destruct (Z.leb_spec z 0); [|lia].
Qed.

Lemma rstrip_ends s : Py.rstrip s ≠ EmptyString -> Py.ends_token (Py.rstrip s) = true.
Proof.
  induction s as [|c r IH]; [easy|]. cbn [Py.rstrip].
  destruct (Py.rstrip r) as [|d r'] eqn:Hr.
  - destruct (Py.isspace c) eqn:Hc; [easy|]. intros _. cbn. now rewrite Hc.
  - intros _. cbn [Py.ends_token]. now apply IH.
Qed.

Lemma rstrip_starts s :
  Py.starts_token s = true -> Py.starts_token (Py.rstrip s) = true.
Proof.
  destruct s as [|c r]; [easy|]. cbn [Py.rstrip Py.starts_token]. intros Hc.
  destruct (Py.rstrip r); [|exact Hc].
  apply negb_true_iff in Hc. rewrite Hc. cbn. now rewrite Hc.
Qed.

Lemma lstrip_starts s : Py.lstrip s = EmptyString ∨ Py.starts_token (Py.lstrip s) = true.
Proof.
  induction s as [|c r IH]; [now left|]. cbn [Py.lstrip].
  destruct (Py.isspace c) eqn:Hc; [exact IH|]. right. cbn. now rewrite Hc.
Qed.

Lemma rstrip_empty : Py.rstrip EmptyString = EmptyString.
Proof. reflexivity. Qed.

Lemma strip_shape s :
  Py.strip s ≠ EmptyString ->
  Py.starts_token (Py.strip s) = true ∧ Py.ends_token (Py.strip s) = true.
Proof.
  unfold Py.strip. intros H. split; [|now apply rstrip_ends].
  destruct (lstrip_starts s) as [E|Hs]; [now rewrite E in H|].
  now apply rstrip_starts.
Qed.

Lemma split_nonempty s : Py.ends_token s = true -> Py.split s ≠ [].
Proof.
  induction s as [|c r IH]; [easy|]. cbn [Py.split Py.ends_token].
  destruct r as [|d r'].
  - intros Hc. apply negb_true_iff in Hc as ->. easy.
  - intros He. specialize (IH He).
    destruct (Py.isspace c); [exact IH|].
    destruct (Py.starts_token (String d r')); [|easy].
    destruct (Py.split (String d r')); easy.
Qed.

Lemma split_no_space s :
  s ≠ EmptyString -> Py.has_space s = false -> Py.split s = [s].
Proof.
  induction s as [|c r IH]; [easy|]. intros _. cbn [Py.has_space Py.split].
  intros H. apply orb_false_iff in H as [-> Hr].
  destruct r as [|d r']; [reflexivity|].
  rewrite IH by easy. cbn [Py.has_space] in Hr. apply orb_false_iff in Hr as [Hd _].
  cbn [Py.starts_token]. now rewrite Hd.
Qed.

Lemma split_cons c r :
  Py.split (String c r) =
    if Py.isspace c then Py.split r
    else if Py.starts_token r then
      match Py.split r with
      | t :: ts => String c t :: ts
      | [] => [String c EmptyString]
      end
    else String c EmptyString :: Py.split r.
Proof. reflexivity. Qed.

Lemma ends_token_tail c r : r ≠ EmptyString -> Py.ends_token (String c r) = Py.ends_token r.
Proof. now destruct r. Qed.

Lemma split_with_space c r :
  Py.isspace c = false -> Py.has_space r = true -> Py.ends_token r = true ->
  (2 <= length (Py.split (String c r)))%nat.
Proof.
  revert c. induction r as [|d r' IH]; [easy|]. intros c Hc Hs He.
  rewrite split_cons, Hc. cbn [Py.starts_token].
  destruct (Py.isspace d) eqn:Hd; cbn [negb].
  - assert (Hr : r' ≠ EmptyString).
    { intros ->. cbn in He. now rewrite Hd in He. }
    rewrite ends_token_tail in He by exact Hr.
    apply split_nonempty in He. rewrite split_cons, Hd.
    destruct (Py.split r'); [easy|]. cbn. lia.
  - cbn [Py.has_space] in Hs. rewrite Hd in Hs. cbn [orb] in Hs.
    assert (Hr : r' ≠ EmptyString) by (intros ->; discriminate Hs).
    rewrite ends_token_tail in He by exact Hr.
    specialize (IH d Hd Hs He).
    destruct (Py.split (String d r')) as [|t ts]; cbn in *; lia.
Qed.

Lemma tokens_of_trimmed s :
  Py.strip s ≠ EmptyString ->
  ((tokens s < 2)%nat ↔ Py.has_space (Py.strip s) = false).
Proof.
  intros Hne. unfold tokens. destruct (strip_shape s Hne) as [Hst Hen].
  destruct (Py.has_space (Py.strip s)) eqn:Hs.
  - split; [|easy]. destruct (Py.strip s) as [|c r]; [easy|].
    cbn in Hst. apply negb_true_iff in Hst.
    cbn [Py.has_space] in Hs. rewrite Hst in Hs. cbn in Hs.
    assert (Hr : r ≠ EmptyString) by (intros ->; discriminate Hs).
    rewrite ends_token_tail in Hen by exact Hr.
    pose proof (split_with_space c r Hst Hs Hen). lia.
  - rewrite split_no_space by easy. cbn. split; [easy|lia].
Qed.

Lemma validate_string_field_nonempty s g n :
  __validate_string_field (PyStr s) g n = Ok tt -> Py.strip s ≠ EmptyString.
Proof.
  unfold __validate_string_field. case_bool_decide as He; [discriminate|auto].
Qed.

Lemma validate_contact_person_run v :
  __validate_contact_person v =
    match __validate_string_field v f_contact_person 2, v with
    | Raise e, _ => Raise e
    | Ok _, PyStr s => if (tokens s <? 2)%nat then Raise MalformedNameError else Ok tt
    | Ok _, _ => Raise AttributeError
    end.
Proof.
  unfold __validate_contact_person, tokens.
  destruct (__validate_string_field v f_contact_person 2) as [[]|e]; [|reflexivity].
  now destruct v.
Qed.

Lemma validate_string_field_errors v g n e :
  __validate_string_field v g n = Raise e ->
  e = TypeError g ∨ e = EmptyValueError g ∨ e = TooShortError g n.
Proof.
  unfold __validate_string_field.
  destruct v; try (intros [= <-]; auto).
  case_bool_decide; [|destruct (_ <? _)%nat]; intros [= <-]; auto.
Qed.

(** C8. Contact person validation runs the generic str check with minimum
    trimmed length 2 first and hands on its error; when that check passes, it
    raises MalformedNameError exactly when the trimmed value splits on
    whitespace into fewer than two tokens, which is when the trimmed value
    holds no whitespace, and succeeds otherwise.  The setter and the
    constructor apply this rule.  One token is refused, two tokens succeed. *)
Theorem contact_person_rule v :
  (∀ e, __validate_string_field v f_contact_person 2 = Raise e ->
        __validate_contact_person v = Raise e) ∧
  (∀ s, v = PyStr s -> __validate_string_field v f_contact_person 2 = Ok tt ->
        ((tokens s < 2)%nat -> __validate_contact_person v = Raise MalformedNameError) ∧
        ((2 <= tokens s)%nat -> __validate_contact_person v = Ok tt) ∧
        ((tokens s < 2)%nat ↔ Py.has_space (Py.strip s) = false)) ∧
  (__validate_contact_person v = Raise MalformedNameError ↔
   ∃ s, v = PyStr s ∧ __validate_string_field v f_contact_person 2 = Ok tt ∧
        (tokens s < 2)%nat) ∧
  (∀ self, set_contact_person v self =
           match __validate_contact_person v with
           | Ok _ => (Ok tt, assign f_contact_person v self)
           | Raise e => (Raise e, self)
           end) ∧
  (∀ json_loads a b c p kwargs,
     validate f_customer_id a = Ok tt -> validate f_name b = Ok tt ->
     validate f_address c = Ok tt -> validate f_phone p = Ok tt ->
     new json_loads [a; b; c; p; v] kwargs =
       match __validate_contact_person v with
       | Ok _ => Ok (mk (Some a) (Some b) (Some c) (Some p) (Some v))
       | Raise e => Raise e
       end) ∧
  __validate_contact_person (PyStr "Ivanov") = Raise MalformedNameError ∧
  __validate_contact_person (PyStr "Ivan Ivanov") = Ok tt.
Proof.
  split; [|split; [|split; [|split; [|split; [|split]]]]].
  - intros e He. now rewrite validate_contact_person_run, He.
  - intros s -> Hs. rewrite validate_contact_person_run, Hs.
    split; [|split].
    + intros Hl. now apply Nat.ltb_lt in Hl as ->.
    + intros Hl. now apply Nat.ltb_ge in Hl as ->.
    + apply tokens_of_trimmed. eauto using validate_string_field_nonempty.
  - rewrite validate_contact_person_run.
    destruct (__validate_string_field v f_contact_person 2) as [[]|e] eqn:Hs.
    + destruct v; try (split; [discriminate|intros (s' & [=] & _)]).
      destruct (Nat.ltb_spec (tokens s) 2).
      * split; [|reflexivity]. intros _. exists s. auto.
      * split; [discriminate|]. intros (s' & [= <-] & _ & Hl). lia.
    + split; [|intros (s & _ & [=] & _)].
      intros [= ->]. apply validate_string_field_errors in Hs as [|[|]]; discriminate.
  - intros self. exact (setter_run f_contact_person v self).
  - intros json_loads a b c p kwargs Ha Hb Hc Hp. rewrite new_run. cbn [__init__].
    rewrite validate_and_init_run. unfold validations. rewrite Ha, Hb, Hc, Hp.
    cbn. now destruct (__validate_contact_person v) as [[]|].
  - reflexivity.
  - reflexivity.
Qed.

Lemma valid_text_str n v : valid_text n v = true -> ∃ s, v = PyStr s.
Proof. destruct v; try discriminate. eauto. Qed.

Lemma valid_fields self :
  valid self ->
  ∃ a b c p k,
    self = mk (Some a) (Some (PyStr b)) (Some (PyStr c)) (Some (PyStr p)) (Some (PyStr k)) ∧
    ∃ z, as_int a = Some z ∧ (0 < z)%Z.
Proof.
  intros H.
  destruct (H f_customer_id) as (a & Ha & Va), (H f_name) as (b & Hb & Vb),
    (H f_address) as (c & Hc & Vc), (H f_phone) as (p & Hp & Vp),
    (H f_contact_person) as (k & Hk & Vk).
  cbn in *. apply valid_text_str in Vb as [b' ->], Vc as [c' ->].
  unfold valid_contact_person in Vk. apply andb_true_iff in Vk as [Vk _].
  apply valid_text_str in Vk as [k' ->].
  destruct p; try discriminate Vp.
  exists a, b', c', s, k'. split.
  - destruct self; cbn in *; congruence.
  - unfold valid_customer_id in Va. destruct (as_int a) as [z|]; [|discriminate].
    exists z. split; [reflexivity|]. now apply Z.ltb_lt.
Qed.

(** The numeral the library prints is the decimal numeral of the number. *)

Lemma all_decimal_string_of_uint d :
  all_decimal (NilEmpty.string_of_uint d) = true.
Proof. induction d; cbn; auto. Qed.

Lemma decimal_value_of_uint_acc d acc :
  decimal_value (Z.pos acc) (NilEmpty.string_of_uint d)
  = Z.pos (Pos.of_uint_acc d acc).
Proof.
  revert acc. induction d; intros acc; cbn [NilEmpty.string_of_uint decimal_value
    Pos.of_uint_acc]; [reflexivity|..];
    match goal with
    | |- decimal_value ?x _ = Z.pos (Pos.of_uint_acc _ ?q) =>
        replace x with (Z.pos q) by (cbn; lia)
    end; apply IHd.
Qed.

Lemma decimal_value_of_uint d :
  decimal_value 0 (NilEmpty.string_of_uint d) = Z.of_N (Pos.of_uint d).
Proof.
  induction d; cbn [NilEmpty.string_of_uint decimal_value Pos.of_uint];
    [reflexivity|exact IHd|..];
    match goal with
    | |- decimal_value ?x _ = Z.of_N (N.pos (Pos.of_uint_acc _ ?q)) =>
        change x with (Z.pos q)
    end; apply decimal_value_of_uint_acc.
Qed.

Lemma to_uint_head p :
  String.prefix "0" (NilEmpty.string_of_uint (Pos.to_uint p)) = false.
Proof.
  pose proof (DecimalPos.Unsigned.to_of (Pos.to_uint p)) as H.
  rewrite DecimalPos.Unsigned.of_to in H. cbn [N.to_uint] in H.
  pose proof (DecimalPos.Unsigned.to_uint_nonzero p) as Hz.
  destruct (Pos.to_uint p) as [|d| | | | | | | | |] eqn:E; try reflexivity.
  exfalso. unfold Decimal.unorm in H. cbn [Decimal.nzhead] in H.
  pose proof (DecimalFacts.nzhead_nonzero d) as Hn.
  destruct (Decimal.nzhead d) as [|u| | | | | | | | |] eqn:En;
    try discriminate H.
  - injection H as H. subst d. now apply Hz.
  - now destruct (Hn u).
Qed.

Lemma str_of_int_numeral z : (0 < z)%Z -> decimal_numeral (Py.str_of_int z) z.
Proof.
  destruct z as [|p|p]; try lia. intros _.
  unfold Py.str_of_int, decimal_numeral. cbn [Z.to_int NilZero.string_of_int].
  pose proof (DecimalPos.Unsigned.to_uint_nonnil p) as Hn.
  assert (E : NilZero.string_of_uint (Pos.to_uint p)
              = NilEmpty.string_of_uint (Pos.to_uint p)).
  { unfold NilZero.string_of_uint. now destruct (Pos.to_uint p). }
  rewrite E. split; [|split; [|split]].
  - destruct (Pos.to_uint p); [congruence|discriminate..].
  - apply all_decimal_string_of_uint.
  - apply to_uint_head.
  - now rewrite decimal_value_of_uint, DecimalPos.Unsigned.of_to.
Qed.

Lemma format_int z :
  Py.format (PyInt z) =
    if (Py.int_max_str_digits <? Py.int_digits z)%nat then Raise PyValueError
    else Ok (Py.str_of_int z).
Proof. reflexivity. Qed.

Lemma str_run a b c p k :
  __str__ (mk (Some a) (Some (PyStr b)) c (Some (PyStr p)) (Some (PyStr k)))
  = match Py.format a with
    | Ok id_text =>
        (Ok ("Customer: ID=" +:+ id_text +:+ ", Name='" +:+ b +:+
             "', Phone='" +:+ p +:+ "', Contact='" +:+ k +:+ "'"),
         mk (Some a) (Some (PyStr b)) c (Some (PyStr p)) (Some (PyStr k)))
    | Raise e => (Raise e, mk (Some a) (Some (PyStr b)) c (Some (PyStr p)) (Some (PyStr k)))
    end.
Proof.
  unfold __str__, mbind, M_bind, getattr, lift, mret, M_ret.
  cbn [slot __customer_id __name __phone __contact_person].
  destruct (Py.format a); reflexivity.
Qed.

(** C9, as the code has it.  The text of a valid record whose identifier has
    at most 4300 digits is the fixed template filled with the stored
    identifier, name, phone and contact person, an int identifier written as
    its decimal numeral.  The address is not read: the text stays the same
    when the address is replaced, and the call leaves the record as it is.
    When the identifier has more than 4300 digits, the interpreter refuses to
    turn it into text, and the call raises its ValueError. *)
Theorem str_follows_template self :
  valid self ->
  ∃ a b p k,
    __customer_id self = Some a ∧ __name self = Some (PyStr b) ∧
    __phone self = Some (PyStr p) ∧ __contact_person self = Some (PyStr k) ∧
    (within_str_limit self ->
     ∃ id_text,
       Py.format a = Ok id_text ∧ renders a id_text ∧
       let text := "Customer: ID=" +:+ id_text +:+ ", Name='" +:+ b +:+
                   "', Phone='" +:+ p +:+ "', Contact='" +:+ k +:+ "'" in
       __str__ self = (Ok text, self) ∧
       ∀ c, __str__ (assign f_address c self) = (Ok text, assign f_address c self)) ∧
    (¬ within_str_limit self -> __str__ self = (Raise PyValueError, self)).
Proof.
  intros H. apply valid_fields in H as (a & b & c & p & k & -> & z & Hz & Hpos).
  exists a, b, p, k. cbn [__customer_id __name __phone __contact_person].
  split; [reflexivity|split; [reflexivity|split; [reflexivity|split; [reflexivity|]]]].
  unfold within_str_limit.
  cbn [assign __customer_id __name __address __phone __contact_person].
  destruct a as [|[]|z'| | | |]; try discriminate Hz.
  - split; [|intros Hn; exfalso; apply Hn; intros z0 [=]].
    intros _. exists "True". cbv zeta. rewrite !str_run. now cbn.
  - cbn in Hz. injection Hz as <-. lia.
  - cbn in Hz. injection Hz as ->. rewrite str_run, format_int.
    destruct (Nat.ltb_spec Py.int_max_str_digits (Py.int_digits z)) as [Hl|Hl].
    + split; [|reflexivity]. intros Hw. specialize (Hw z eq_refl). lia.
    + split; [|intros Hn; exfalso; apply Hn; intros z0 [= <-]; exact Hl].
      intros _. exists (Py.str_of_int z). cbv zeta.
      split; [reflexivity|split; [now apply str_of_int_numeral|split]].
      * reflexivity.
      * intros c'. rewrite str_run, format_int.
        destruct (Nat.ltb_spec Py.int_max_str_digits (Py.int_digits z)); [lia|].
        reflexivity.
Qed.

Lemma missing_fields_list l :
  (∀ key, key ∈ required_fields -> PyStr key ∉ l) ->
  missing_fields required_fields (PyList l) = Ok required_fields.
Proof.
  intros H.
  assert (E : ∀ key, key ∈ required_fields ->
              Py.not_in key (PyList l) = Ok true).
  { intros key Hk. cbn. f_equal. apply negb_true_iff, not_true_is_false.
    rewrite existsb_eq_str. now apply H. }
  unfold required_fields in *. cbn [missing_fields].
  rewrite !E by (rewrite !elem_of_cons; tauto). reflexivity.
Qed.

(** C10. A text is refused with FormatError exactly when [json.loads] finds it
    malformed.  A text that decodes to an array holding none of the five key
    names is refused on the path of the missing keys, all five reported; the
    text of the empty array is one. *)
Theorem non_mapping_text json_loads text kwargs :
  (new json_loads [PyStr text] kwargs = Raise FormatError ↔
   json_loads text = JSONDecodeError) ∧
  (∀ l, json_loads text = Decoded (PyList l) ->
        (∀ key, key ∈ required_fields -> PyStr key ∉ l) ->
        new json_loads [PyStr text] kwargs = Raise (MissingFieldError required_fields)) ∧
  (∃ array, Json.loads array = Decoded (PyList []) ∧
            new Json.loads [PyStr array] kwargs
            = Raise (MissingFieldError required_fields)).
Proof.
  repeat split.
  - intros H. apply new_raise_inv in H. cbn [__init__] in H.
    destruct (json_loads text); [|reflexivity|discriminate H].
    apply init_from_dict_about_fields in H. discriminate H.
  - intros H. rewrite new_run. cbn [__init__]. now rewrite H.
  - intros l Hl Hk. rewrite new_run. cbn [__init__]. rewrite Hl.
    unfold __init_from_dict, mbind, M_bind, lift. now rewrite missing_fields_list.
  - exists "[]". split; reflexivity.
Qed.

(** *** The decoder never runs out of fuel *)

Section Fuel.

Import Json.

Lemma skip_ws_length s : (String.length (skip_ws s) <= String.length s)%nat.
Proof.
  induction s as [|c r IH]; [easy|]. cbn. destruct (is_ws c); cbn; lia.
Qed.

Lemma push_rest c p v r : push c p = Parsed v r -> ∃ t, p = Parsed t r.
Proof. destruct p; cbn; try discriminate. intros [= _ <-]. eauto. Qed.

Lemma push_plain c p : p ≠ Exhausted -> push c p ≠ Exhausted.
Proof. now destruct p. Qed.

Lemma scanstring_bounded n :
  ∀ s, (String.length s <= n)%nat ->
    scanstring s ≠ Exhausted ∧
    ∀ v r, scanstring s = Parsed v r -> (String.length r < String.length s)%nat.
Proof.
  induction n as [|n IH]; intros s Hs.
  - destruct s; [|cbn in Hs; lia]. split; [easy|discriminate].
  - destruct s as [|c r]; [split; [easy|discriminate]|].
    cbn [String.length] in Hs.
    assert (Hr : ∀ t, (String.length t <= String.length r)%nat ->
              scanstring t ≠ Exhausted ∧
              ∀ v r', scanstring t = Parsed v r' ->
                      (String.length r' < String.length (String c r))%nat).
    { intros t Ht. destruct (IH t ltac:(lia)) as [H1 H2]. split; [exact H1|].
      intros v r' Hp. apply H2 in Hp. cbn [String.length]. lia. }
    cbn [scanstring].
    destruct (Ascii.eqb c quote).
    { split; [easy|]. intros v r' [= _ <-]. cbn. lia. }
    destruct (Ascii.eqb c "\").
    2: { destruct (N_of_ascii c <? 32)%N; [split; [easy|discriminate]|].
         destruct (Hr r ltac:(lia)) as [H1 H2]. split.
         - now apply push_plain.
         - intros v r' Hp. apply push_rest in Hp as [t Hp]. eauto. }
    destruct r as [|e r1]; [split; [easy|discriminate]|].
    assert (Hplain : ∀ t, (String.length t <= String.length r1)%nat ->
              match escape e with
              | Some x => push (Some x) (scanstring t)
              | None => Malformed
              end ≠ Exhausted ∧
              ∀ v r', match escape e with
                      | Some x => push (Some x) (scanstring t)
                      | None => Malformed
                      end = Parsed v r' ->
                      (String.length r' < String.length (String c (String e r1)))%nat).
    { intros t Ht. destruct (Hr t ltac:(cbn; lia)) as [H1 H2].
      destruct (escape e); [|split; [easy|discriminate]]. split.
      - now apply push_plain.
      - intros v r' Hp. apply push_rest in Hp as [w Hp]. eauto. }
    destruct (Ascii.eqb_spec e "u") as [->|Hu].
    + destruct r1 as [|h1 [|h2 [|h3 [|h4 r2]]]];
        try (split; [easy|discriminate]).
      destruct (hex4 h1 h2 h3 h4); [|split; [easy|discriminate]].
      destruct (Hr r2 ltac:(cbn; lia)) as [H1 H2]. split.
      * now apply push_plain.
      * intros v r' Hp. apply push_rest in Hp as [w Hp]. eauto.
    + assert (E : ∀ X Y : parsed (option string),
                match e with
                | "u"%char => X
                | _ => Y
                end = Y).
      { intros X Y. destruct e as [[] [] [] [] [] [] [] []]; try reflexivity.
        now destruct Hu. }
      specialize (Hplain r1 ltac:(lia)).
      destruct r1 as [|h1 [|h2 [|h3 [|h4 r2]]]]; rewrite ?E; exact Hplain.
Qed.

Lemma scanstring_rest s v r :
  scanstring s = Parsed v r -> (String.length r < String.length s)%nat.
Proof.
  intros H. destruct (scanstring_bounded (String.length s) s) as [_ Hr]; eauto.
Qed.

Lemma scanstring_fuel s : scanstring s ≠ Exhausted.
Proof. now destruct (scanstring_bounded (String.length s) s). Qed.

Lemma strip_prefix_length p s r :
  strip_prefix p s = Some r ->
  (String.length r + String.length p = String.length s)%nat.
Proof.
  revert s. induction p as [|a p IH]; intros [|b s]; cbn; try discriminate.
  - now intros [= <-].
  - now intros [= <-].
  - destruct (Ascii.eqb a b); [|discriminate]. intros H. apply IH in H. lia.
Qed.

Lemma span_digits_length s :
  (String.length (snd (span_digits s)) <= String.length s)%nat.
Proof.
  induction s as [|c r IH]; [easy|]. cbn.
  destruct (is_digit c); [|cbn; lia].
  destruct (span_digits r). cbn in *. lia.
Qed.

Lemma fraction_length s :
  (String.length (snd (fraction s)) <= String.length s)%nat.
Proof.
  unfold fraction. destruct s as [|c r]; [easy|].
  assert (H : (String.length (snd (match span_digits r with
                                   | (String _ _, rest) => (true, rest)
                                   | (EmptyString, _) => (false, String c r)
                                   end)) <= String.length (String c r))%nat).
  { pose proof (span_digits_length r). destruct (span_digits r) as [[|] ?];
      cbn in *; lia. }
  destruct c as [[] [] [] [] [] [] [] []]; try (cbn; lia); exact H.
Qed.

Lemma exponent_length s :
  (String.length (snd (exponent s)) <= String.length s)%nat.
Proof.
  unfold exponent. destruct s as [|c r]; [easy|].
  destruct (Ascii.eqb c "e" || Ascii.eqb c "E"); [|cbn; lia].
  set (r' := match r with
             | String d r1 => if Ascii.eqb d "+" || Ascii.eqb d "-" then r1 else r
             | EmptyString => r
             end).
  assert (Hr : (String.length r' <= String.length r)%nat).
  { subst r'. destruct r as [|d r1]; [easy|].
    destruct (Ascii.eqb d "+" || Ascii.eqb d "-"); cbn; lia. }
  pose proof (span_digits_length r'). destruct (span_digits r') as [[|] ?];
    cbn in *; lia.
Qed.

Lemma number_rest s v r :
  number s = Number v r -> (String.length r < String.length s)%nat.
Proof.
  unfold number.
  set (sign := match s with
               | String "-" r0 => (true, r0)
               | _ => (false, s)
               end).
  assert (Hs : (String.length (snd sign) <= String.length s)%nat).
  { subst sign. destruct s as [|c r0]; [easy|].
    destruct c as [[] [] [] [] [] [] [] []]; cbn; lia. }
  destruct sign as [negative s1]. cbn [snd] in Hs.
  set (int_part := match s1 with
                   | String c r0 =>
                       if Ascii.eqb c "0" then Some (String c EmptyString, r0)
                       else if is_digit c then Some (span_digits s1)
                       else None
                   | EmptyString => None
                   end).
  assert (Hi : ∀ ds r0, int_part = Some (ds, r0) ->
               (String.length r0 < String.length s1)%nat).
  { subst int_part. intros ds r0. destruct s1 as [|c r1]; [discriminate|].
    destruct (Ascii.eqb c "0"); [intros [= _ <-]; cbn; lia|].
    destruct (is_digit c) eqn:Hd; [|discriminate].
    intros [= H]. pose proof (span_digits_length r1) as Hl.
    cbn in H. rewrite Hd in H. destruct (span_digits r1). injection H as _ <-.
    cbn in *. lia. }
  destruct int_part as [[ds r0]|]; [|discriminate].
  specialize (Hi ds r0 eq_refl).
  pose proof (fraction_length r0) as Hf. destruct (fraction r0) as [hf r1].
  pose proof (exponent_length r1) as He. destruct (exponent r1) as [he r2].
  cbn [snd] in *.
  destruct (hf || he); [intros [= _ <-]; lia|].
  destruct (_ <? _)%nat; [discriminate|]. intros [= _ <-]. lia.
Qed.

Lemma literal_fuel s : literal s ≠ Exhausted.
Proof.
  unfold literal.
  repeat match goal with
         | |- context [strip_prefix ?p s] => destruct (strip_prefix p s)
         | |- context [number s] => destruct (number s)
         end; discriminate.
Qed.

Lemma literal_rest s v r :
  literal s = Parsed v r -> (String.length r < String.length s)%nat.
Proof.
  unfold literal.
  destruct (strip_prefix "null" s) eqn:E1;
    [intros [= _ <-]; apply strip_prefix_length in E1; cbn in E1; lia|].
  destruct (strip_prefix "true" s) eqn:E2;
    [intros [= _ <-]; apply strip_prefix_length in E2; cbn in E2; lia|].
  destruct (strip_prefix "false" s) eqn:E3;
    [intros [= _ <-]; apply strip_prefix_length in E3; cbn in E3; lia|].
  destruct (number s) eqn:E4;
    [intros [= _ <-]; now apply number_rest in E4|discriminate|].
  destruct (strip_prefix "NaN" s) eqn:E5;
    [intros [= _ <-]; apply strip_prefix_length in E5; cbn in E5; lia|].
  destruct (strip_prefix "Infinity" s) eqn:E6;
    [intros [= _ <-]; apply strip_prefix_length in E6; cbn in E6; lia|].
  destruct (strip_prefix "-Infinity" s) eqn:E7;
    [intros [= _ <-]; apply strip_prefix_length in E7; cbn in E7; lia|].
  discriminate.
Qed.

Lemma scan_once_step fuel s :
  scan_once (S fuel) s =
    match s with
    | EmptyString => Malformed
    | String c r =>
        if Ascii.eqb c quote then
          match scanstring r with
          | Parsed t rest => Parsed (PyStr <$> t) rest
          | Malformed => Malformed
          | Refused => Refused
          | Exhausted => Exhausted
          end
        else if Ascii.eqb c "{" then
          match skip_ws r with
          | String d r' =>
              if Ascii.eqb d "}" then Parsed (Some (PyDict ∅)) r'
              else if Ascii.eqb d quote then members fuel (Some ∅) r'
              else Malformed
          | EmptyString => Malformed
          end
        else if Ascii.eqb c "[" then
          match skip_ws r with
          | String "]" r' => Parsed (Some (PyList [])) r'
          | r' => elements fuel (Some []) r'
          end
        else literal s
    end.
Proof. reflexivity. Qed.

Lemma members_step fuel acc s :
  members (S fuel) acc s =
    match scanstring s with
    | Parsed key r =>
        match skip_ws r with
        | String ":" r1 =>
            match scan_once fuel (skip_ws r1) with
            | Parsed v r2 =>
                let acc' := add_member key v acc in
                match skip_ws r2 with
                | String d r3 =>
                    if Ascii.eqb d "}" then Parsed (PyDict <$> acc') r3
                    else if Ascii.eqb d "," then
                      match skip_ws r3 with
                      | String q r4 =>
                          if Ascii.eqb q quote then members fuel acc' r4 else Malformed
                      | EmptyString => Malformed
                      end
                    else Malformed
                | EmptyString => Malformed
                end
            | Malformed => Malformed
            | Refused => Refused
            | Exhausted => Exhausted
            end
        | _ => Malformed
        end
    | Malformed => Malformed
    | Refused => Refused
    | Exhausted => Exhausted
    end.
Proof. reflexivity. Qed.

Lemma elements_step fuel acc s :
  elements (S fuel) acc s =
    match scan_once fuel s with
    | Parsed v r =>
        let acc' := add_element v acc in
        match skip_ws r with
        | String d r1 =>
            if Ascii.eqb d "]" then Parsed (PyList <$> acc') r1
            else if Ascii.eqb d "," then elements fuel acc' (skip_ws r1)
            else Malformed
        | EmptyString => Malformed
        end
    | Malformed => Malformed
    | Refused => Refused
    | Exhausted => Exhausted
    end.
Proof. reflexivity. Qed.

Lemma skip_ws_cons r d r' :
  skip_ws r = String d r' -> (S (String.length r') <= String.length r)%nat.
Proof. intros H. pose proof (skip_ws_length r) as Hl. rewrite H in Hl. exact Hl. Qed.

Lemma fuel_suffices fuel :
  (∀ s, (2 * String.length s + 2 <= fuel)%nat ->
     scan_once fuel s ≠ Exhausted ∧
     ∀ v r, scan_once fuel s = Parsed v r ->
            (String.length r < String.length s)%nat) ∧
  (∀ acc s, (2 * String.length s + 1 <= fuel)%nat ->
     members fuel acc s ≠ Exhausted ∧
     ∀ v r, members fuel acc s = Parsed v r ->
            (String.length r < String.length s)%nat) ∧
  (∀ acc s, (2 * String.length s + 3 <= fuel)%nat ->
     elements fuel acc s ≠ Exhausted ∧
     ∀ v r, elements fuel acc s = Parsed v r ->
            (String.length r < String.length s)%nat).
Proof.
  induction fuel as [|fuel (IHs & IHm & IHe)];
    [repeat split; intros; lia|].
  split; [|split].
  - intros s Hf. rewrite scan_once_step.
    destruct s as [|c r]; [split; [easy|discriminate]|].
    cbn [String.length] in *.
    destruct (Ascii.eqb c quote).
    { pose proof (scanstring_fuel r) as Hx.
      destruct (scanstring r) as [t rest| | |] eqn:E; try (split; [easy|discriminate]).
      split; [easy|]. intros v r' [= _ <-]. apply scanstring_rest in E. lia. }
    destruct (Ascii.eqb c "{").
    { destruct (skip_ws r) as [|d r'] eqn:E; [split; [easy|discriminate]|].
      apply skip_ws_cons in E.
      destruct (Ascii.eqb d "}"); [split; [easy|]; intros v r0 [= _ <-]; lia|].
      destruct (Ascii.eqb d quote); [|split; [easy|discriminate]].
      destruct (IHm (Some ∅) r' ltac:(lia)) as [H1 H2]. split; [exact H1|].
      intros v r0 Hp. apply H2 in Hp. lia. }
    destruct (Ascii.eqb c "[").
    { assert (Hel : ∀ t, (String.length t <= String.length r)%nat ->
                elements fuel (Some []) t ≠ Exhausted ∧
                ∀ v r0, elements fuel (Some []) t = Parsed v r0 ->
                        (String.length r0 < S (String.length r))%nat).
      { intros t Ht. destruct (IHe (Some []) t ltac:(lia)) as [H1 H2].
        split; [exact H1|]. intros v r0 Hp. apply H2 in Hp. lia. }
      pose proof (skip_ws_length r) as Hl.
      destruct (skip_ws r) as [|d r'] eqn:E; [now apply Hel|].
      specialize (Hel (String d r') Hl). cbn [String.length] in Hl.
      destruct (Ascii.eqb_spec d "]") as [->|Hd].
      - split; [easy|]. intros v r0 [= _ <-]. lia.
      - destruct d as [[] [] [] [] [] [] [] []]; try exact Hel. now destruct Hd. }
    split; [apply literal_fuel|]. intros v r0 Hp.
    apply literal_rest in Hp. exact Hp.
  - intros acc s Hf. rewrite members_step.
    pose proof (scanstring_fuel s) as Hx.
    destruct (scanstring s) as [key r| | |] eqn:E; try (split; [easy|discriminate]).
    apply scanstring_rest in E.
    destruct (skip_ws r) as [|d r1] eqn:E1; [split; [easy|discriminate]|].
    apply skip_ws_cons in E1.
    assert (Hgo :
      match scan_once fuel (skip_ws r1) with
      | Parsed v r2 =>
          let acc' := add_member key v acc in
          match skip_ws r2 with
          | String d r3 =>
              if Ascii.eqb d "}" then Parsed (PyDict <$> acc') r3
              else if Ascii.eqb d "," then
                match skip_ws r3 with
                | String q r4 =>
                    if Ascii.eqb q quote then members fuel acc' r4 else Malformed
                | EmptyString => Malformed
                end
              else Malformed
          | EmptyString => Malformed
          end
      | Malformed => Malformed
      | Refused => Refused
      | Exhausted => Exhausted
      end ≠ Exhausted ∧
      ∀ v r0,
        match scan_once fuel (skip_ws r1) with
        | Parsed v r2 =>
            let acc' := add_member key v acc in
            match skip_ws r2 with
            | String d r3 =>
                if Ascii.eqb d "}" then Parsed (PyDict <$> acc') r3
                else if Ascii.eqb d "," then
                  match skip_ws r3 with
                  | String q r4 =>
                      if Ascii.eqb q quote then members fuel acc' r4 else Malformed
                  | EmptyString => Malformed
                  end
                else Malformed
            | EmptyString => Malformed
            end
        | Malformed => Malformed
        | Refused => Refused
        | Exhausted => Exhausted
        end = Parsed v r0 -> (String.length r0 < String.length s)%nat).
    { pose proof (skip_ws_length r1) as Hl1.
      destruct (IHs (skip_ws r1) ltac:(lia)) as [H1 H2].
      destruct (scan_once fuel (skip_ws r1)) as [v r2| | |];
        try (split; [easy|discriminate]).
      specialize (H2 v r2 eq_refl). cbv zeta.
      destruct (skip_ws r2) as [|d2 r3] eqn:E2; [split; [easy|discriminate]|].
      apply skip_ws_cons in E2.
      destruct (Ascii.eqb d2 "}"); [split; [easy|]; intros ? ? [= _ <-]; lia|].
      destruct (Ascii.eqb d2 ","); [|split; [easy|discriminate]].
      destruct (skip_ws r3) as [|q r4] eqn:E3; [split; [easy|discriminate]|].
      apply skip_ws_cons in E3.
      destruct (Ascii.eqb q quote); [|split; [easy|discriminate]].
      destruct (IHm (add_member key v acc) r4 ltac:(lia)) as [H3 H4].
      split; [exact H3|]. intros v0 r0 Hp. apply H4 in Hp. lia. }
    destruct (Ascii.eqb_spec d ":") as [->|Hd]; [exact Hgo|].
    destruct d as [[] [] [] [] [] [] [] []]; try (split; [easy|discriminate]).
    now destruct Hd.
  - intros acc s Hf. rewrite elements_step.
    destruct (IHs s ltac:(lia)) as [H1 H2].
    destruct (scan_once fuel s) as [v r| | |]; try (split; [easy|discriminate]).
    specialize (H2 v r eq_refl). cbv zeta.
    destruct (skip_ws r) as [|d r1] eqn:E; [split; [easy|discriminate]|].
    apply skip_ws_cons in E.
    destruct (Ascii.eqb d "]"); [split; [easy|]; intros ? ? [= _ <-]; lia|].
    destruct (Ascii.eqb d ","); [|split; [easy|discriminate]].
    pose proof (skip_ws_length r1) as Hl.
    destruct (IHe (add_element v acc) (skip_ws r1) ltac:(lia)) as [H3 H4].
    split; [exact H3|]. intros v0 r0 Hp. apply H4 in Hp. lia.
Qed.

(** The fuel [loads] gives is enough for every text. *)
Lemma loads_has_fuel text :
  scan_once (2 * String.length text + 2) (skip_ws text) ≠ Exhausted.
Proof.
  pose proof (skip_ws_length text) as Hl.
  destruct (fuel_suffices (2 * String.length text + 2)) as (H & _).
  now destruct (H (skip_ws text) ltac:(lia)).
Qed.

End Fuel.

(** *** The theorems at sample data *)

Lemma sample_record_valid : valid Sample.record.
Proof. intros []; eexists; (split; [reflexivity|vm_compute; reflexivity]). Defined.

Lemma sample_mapping_binds :
  binds Sample.mapping (PyInt 7) (PyStr "AB") (PyStr "Main street 5")
    (PyStr "12-34(56)") (PyStr "Ivan Ivanov").
Proof. repeat split; vm_compute; reflexivity. Defined.

Lemma sample_mapping_nonempty : Sample.mapping ≠ ∅.
Proof. exact (binds_nonempty _ _ _ _ _ _ sample_mapping_binds). Defined.

Lemma four_constructions_agree_witness :
  new Json.loads [PyDict Sample.mapping] ∅ = Ok Sample.record ∧
  new Json.loads [PyStr Sample.text] ∅ = Ok Sample.record ∧
  new Json.loads [PyInt 7; PyStr "AB"; PyStr "Main street 5"; PyStr "12-34(56)";
                  PyStr "Ivan Ivanov"] ∅ = Ok Sample.record ∧
  new Json.loads [] Sample.mapping = Ok Sample.record ∧
  get_customer_id Sample.record = (Ok (PyInt 7), Sample.record) ∧
  get_name Sample.record = (Ok (PyStr "AB"), Sample.record) ∧
  get_address Sample.record = (Ok (PyStr "Main street 5"), Sample.record) ∧
  get_phone Sample.record = (Ok (PyStr "12-34(56)"), Sample.record) ∧
  get_contact_person Sample.record = (Ok (PyStr "Ivan Ivanov"), Sample.record).
Proof.
  apply (four_constructions_agree Json.loads Sample.mapping Sample.text);
    try (vm_compute; reflexivity).
  exact sample_mapping_binds.
Defined.

Lemma observable_records_are_valid_witness :
  valid (after Json.loads (call_set f_phone (PyStr "12"))
           (after Json.loads (call_set f_name (PyStr "Romashka")) Sample.record)).
Proof.
  apply (observable_records_are_valid Json.loads).
  do 2 apply observable_after.
  apply (observable_new Json.loads [PyStr Sample.text] ∅).
  vm_compute. reflexivity.
Defined.

Lemma setter_rejects_without_change_witness :
  ∃ e, setter f_phone (PyStr "12") Sample.record = (Raise e, Sample.record) ∧
       ∀ g, slot g (snd (setter f_phone (PyStr "12") Sample.record))
            = slot g Sample.record.
Proof.
  apply setter_rejects_without_change; [exact sample_record_valid|].
  vm_compute. reflexivity.
Defined.

(** C4, to the letter, fails: two positional arguments together with the five
    named parameters are none of the four shapes, and the call returns a
    record. *)
Lemma shape_rule_fails_on_mixed_call :
  ¬ shape_rule_as_stated Json.loads [PyInt 1; PyInt 2] Sample.mapping.
Proof.
  intros H. destruct H as [why Hw].
  - intros [(t & E & _)|[(d & E & _)|[(E & _)|(E & _)]]]; discriminate E.
  - vm_compute in Hw. discriminate Hw.
Defined.

Lemma constructor_dispatch_witness :
  new Json.loads [PyInt 1; PyInt 2] Sample.mapping = Ok Sample.record ∧
  new Json.loads [PyStr Sample.text] Sample.no_phone = Ok Sample.record.
Proof.
  destruct (constructor_dispatch Json.loads [PyInt 1; PyInt 2] Sample.mapping)
    as (_ & _ & Hnamed).
  destruct (constructor_dispatch Json.loads [PyStr Sample.text] Sample.no_phone)
    as (_ & Hone & _).
  split.
  - rewrite Hnamed; [vm_compute; reflexivity|cbn; lia|cbn; lia|].
    exact sample_mapping_nonempty.
  - rewrite Hone; [vm_compute; reflexivity|left; reflexivity].
Defined.

(** C5, to the letter, fails twice.  Of the empty phone, no digit remains,
    which is fewer than five, and the error is InvalidFormatError.  Five
    superscript twos are not decimal digits, and the phone is accepted. *)
Lemma phone_rule_fails_as_stated :
  ¬ phone_rule_as_stated EmptyString ∧ ¬ phone_rule_as_stated Sample.superscripts.
Proof.
  split.
  - intros (_ & H & _). specialize (H eq_refl). cbn in H.
    assert (E : Raise InvalidFormatError = Raise (TooShortError f_phone 5))
      by (apply H; lia).
    discriminate E.
  - intros (H & _). specialize (H eq_refl). vm_compute in H. discriminate H.
Defined.

Lemma phone_rule_witness :
  __validate_phone (PyStr "12-34(56)") = Ok tt ∧
  set_phone (PyStr "12-34(56)") Sample.record
  = (Ok tt, assign f_phone (PyStr "12-34(56)") Sample.record) ∧
  get_phone (assign f_phone (PyStr "12-34(56)") Sample.record)
  = (Ok (PyStr "12-34(56)"), assign f_phone (PyStr "12-34(56)") Sample.record) ∧
  __validate_phone (PyStr "12") = Raise (TooShortError f_phone 5) ∧
  __validate_phone (PyStr "12a45") = Raise InvalidFormatError.
Proof.
  destruct (phone_rule "12-34(56)") as (_ & _ & _ & Hok & _).
  destruct (phone_rule "12") as (_ & _ & Hshort & _).
  destruct (phone_rule "12a45") as (_ & Hformat & _).
  destruct Hok as (Hv & Hset & _); [reflexivity|cbn; lia|].
  destruct (Hset Sample.record) as [Hs Hg].
  split; [exact Hv|split; [exact Hs|split; [exact Hg|split]]].
  - apply Hshort; [discriminate|reflexivity|cbn; lia].
  - apply Hformat. right. reflexivity.
Defined.

Lemma missing_keys_are_reported_witness :
  new Json.loads [PyDict Sample.no_phone] ∅ = Raise (MissingFieldError ["phone"]) ∧
  new Json.loads [PyStr Sample.text_no_phone] ∅ = Raise (MissingFieldError ["phone"]) ∧
  new Json.loads [] Sample.no_phone = Raise (MissingFieldError ["phone"]).
Proof.
  destruct (missing_keys_are_reported Json.loads Sample.no_phone ∅) as (H1 & H2 & H3 & _).
  - exists "phone". split; [|vm_compute; reflexivity].
    apply list_elem_of_In. cbn. tauto.
  - split; [exact H1|split].
    + apply H2. vm_compute. reflexivity.
    + apply H3. intros E. apply (f_equal (lookup "name")) in E.
      vm_compute in E. discriminate E.
Defined.

Lemma customer_id_rule_witness :
  customer_id_refused Json.loads (PyInt 0) RangeError ∧
  customer_id_refused Json.loads (PyInt (-3)) RangeError ∧
  customer_id_refused Json.loads (PyStr "7") (TypeError f_customer_id) ∧
  new Json.loads [PyStr Sample.text_zero_id] ∅ = Raise RangeError.
Proof.
  destruct (customer_id_rule Json.loads (PyInt 0)) as [_ H0].
  destruct (customer_id_rule Json.loads (PyInt (-3))) as [_ H3].
  destruct (customer_id_rule Json.loads (PyStr "7")) as [Hs _].
  specialize (H0 0%Z eq_refl ltac:(lia)).
  specialize (H3 (-3)%Z eq_refl ltac:(lia)).
  specialize (Hs eq_refl).
  split; [exact H0|split; [exact H3|split; [exact Hs|]]].
  destruct H0 as (_ & _ & _ & _ & Htext & _).
  apply (Htext Sample.text_zero_id Sample.zero_id); vm_compute; reflexivity.
Defined.

Lemma contact_person_rule_witness :
  __validate_contact_person (PyStr "A") = Raise (TooShortError f_contact_person 2) ∧
  __validate_contact_person (PyStr " Ivanov ") = Raise MalformedNameError ∧
  Py.has_space (Py.strip " Ivanov ") = false ∧
  __validate_contact_person (PyStr "Ivan  Ivanov") = Ok tt.
Proof.
  destruct (contact_person_rule (PyStr "A")) as (Hgen & _).
  destruct (contact_person_rule (PyStr " Ivanov ")) as (_ & Hone & _).
  destruct (contact_person_rule (PyStr "Ivan  Ivanov")) as (_ & Htwo & _).
  destruct (Hone " Ivanov " eq_refl eq_refl) as (Hbad & _ & Hspace).
  destruct (Htwo "Ivan  Ivanov" eq_refl eq_refl) as (_ & Hgood & _).
  split; [|split; [|split]].
  - apply Hgen. reflexivity.
  - apply Hbad. vm_compute. lia.
  - apply Hspace. vm_compute. lia.
  - apply Hgood. vm_compute. lia.
Defined.

(** C9, to the letter, fails: the record with the identifier 10^4300 is valid,
    and asking for its text raises. *)
Lemma str_fails_on_a_long_identifier : ¬ str_rule_as_stated Sample.long_id.
Proof.
  intros H. destruct H as [text Ht].
  - intros []; eexists; (split; [reflexivity|vm_compute; reflexivity]).
  - assert (E : fst (__str__ Sample.long_id) = Raise PyValueError)
      by (vm_compute; reflexivity).
    rewrite E in Ht. discriminate Ht.
Defined.

Lemma str_follows_template_witness :
  __str__ Sample.record
  = (Ok "Customer: ID=7, Name='AB', Phone='12-34(56)', Contact='Ivan Ivanov'",
     Sample.record) ∧
  __str__ Sample.long_id = (Raise PyValueError, Sample.long_id).
Proof.
  destruct (str_follows_template Sample.record sample_record_valid)
    as (a & b & p & k & Ha & Hb & Hp & Hk & Hin & _).
  destruct (str_follows_template Sample.long_id)
    as (_ & _ & _ & _ & _ & _ & _ & _ & _ & Hout).
  { intros []; eexists; (split; [reflexivity|vm_compute; reflexivity]). }
  cbn in Ha, Hb, Hp, Hk.
  injection Ha as <-. injection Hb as <-. injection Hp as <-. injection Hk as <-.
  split.
  - destruct Hin as (t & Hf & _ & Hs & _).
    { intros z [= <-]. apply Nat.leb_le. vm_compute. reflexivity. }
    vm_compute in Hf. injection Hf as <-. exact Hs.
  - apply Hout. intros Hw. specialize (Hw _ eq_refl).
    apply Nat.leb_le in Hw.
    assert (E : (Py.int_digits (10 ^ 4300) <=? Py.int_max_str_digits)%nat = false)
      by (vm_compute; reflexivity).
    rewrite E in Hw. discriminate Hw.
Defined.

Lemma non_mapping_text_witness :
  Json.loads "[]" = Decoded (PyList []) ∧
  new Json.loads [PyStr "[]"] ∅ = Raise (MissingFieldError required_fields) ∧
  new Json.loads [PyStr "[1, 2"] ∅ = Raise FormatError.
Proof.
  destruct (non_mapping_text Json.loads "[]" ∅) as (_ & Harray & _).
  destruct (non_mapping_text Json.loads "[1, 2" ∅) as (Hformat & _).
  split; [reflexivity|split].
  - apply (Harray []); [reflexivity|]. intros key _ H. inversion H.
  - apply Hformat. vm_compute. reflexivity.
Defined.

(** The remaining examples of the specification. *)

Example name_of_one_character :
  __validate_string_field (PyStr "A") f_name 2 = Raise (TooShortError f_name 2) ∧
  __validate_string_field (PyStr "AB") f_name 2 = Ok tt.
Proof. split; reflexivity. Qed.

Example phone_of_two_digits :
  __validate_phone (PyStr "12") = Raise (TooShortError f_phone 5).
Proof. reflexivity. Qed.

Example text_that_is_a_scalar :
  new Json.loads [PyStr "5"] ∅ = Raise PyTypeError.
Proof. reflexivity. Qed.

(** ** Further properties of the code *)

Import Behaviour.

(** *** Trimming *)

Lemma lstrip_fixed s : Py.starts_token s = true -> Py.lstrip s = s.
Proof.
  destruct s as [|c r]; [easy|]. cbn. intros H.
  apply negb_true_iff in H. now rewrite H.
Qed.

Lemma rstrip_fixed s : Py.ends_token s = true -> Py.rstrip s = s.
Proof.
  induction s as [|c r IH]; [easy|]. destruct r as [|d r'].
  - cbn. intros H. apply negb_true_iff in H. now rewrite H.
  - intros H. rewrite ends_token_tail in H by easy.
    change (Py.rstrip (String c (String d r'))) with
      (match Py.rstrip (String d r') with
       | EmptyString => if Py.isspace c then EmptyString else String c EmptyString
       | r0 => String c r0
       end).
    now rewrite (IH H).
Qed.

Lemma strip_idempotent s : Py.strip (Py.strip s) = Py.strip s.
Proof.
  destruct (string_dec (Py.strip s) EmptyString) as [E|Hne]; [now rewrite E|].
  destruct (strip_shape s Hne) as [Hs He].
  unfold Py.strip at 1. now rewrite (lstrip_fixed _ Hs), (rstrip_fixed _ He).
Qed.

Lemma lstrip_empty s : Py.lstrip s = EmptyString ↔ all_space s = true.
Proof.
  induction s as [|c r IH]; [easy|]. cbn.
  destruct (Py.isspace c); [exact IH|]. easy.
Qed.

Lemma strip_empty s : Py.strip s = EmptyString ↔ all_space s = true.
Proof.
  rewrite <- lstrip_empty. unfold Py.strip. split; [|now intros ->].
  intros H. destruct (lstrip_starts s) as [E|Hs]; [exact E|].
  apply rstrip_starts in Hs. rewrite H in Hs. discriminate Hs.
Qed.

Lemma split_length s : (length (Py.split s) <= String.length s)%nat.
Proof.
  induction s as [|c r IH]; [easy|]. rewrite split_cons. cbn [String.length].
  destruct (Py.isspace c); [lia|].
  destruct (Py.starts_token r); [|cbn; lia].
  destruct (Py.split r); cbn in *; lia.
Qed.

(** X1. The str rules look at the trimmed value only: a name, an address or a
    contact person and its trimmed form pass or fail alike, with the same
    error. *)
Theorem trimming_does_not_change_the_verdict s :
  (∀ g n, __validate_string_field (PyStr (Py.strip s)) g n
          = __validate_string_field (PyStr s) g n) ∧
  __validate_contact_person (PyStr (Py.strip s)) = __validate_contact_person (PyStr s).
Proof.
  assert (H : ∀ g n, __validate_string_field (PyStr (Py.strip s)) g n
                     = __validate_string_field (PyStr s) g n).
  { intros g n. unfold __validate_string_field. now rewrite strip_idempotent. }
  split; [exact H|].
  unfold __validate_contact_person. now rewrite H, strip_idempotent.
Qed.

(** X2. The generic str check by cases: a value that is no str gives
    TypeError; a str of whitespace only, the empty str included, gives
    EmptyValueError whatever the minimum; a str whose trimmed length is below
    the minimum gives TooShortError; any other str passes.  With a minimum of
    one, the default of the source, TooShortError does not occur. *)
Theorem string_field_cases v g n :
  ((∀ s, v ≠ PyStr s) -> __validate_string_field v g n = Raise (TypeError g)) ∧
  (∀ s, v = PyStr s ->
     (all_space s = true -> __validate_string_field v g n = Raise (EmptyValueError g)) ∧
     (all_space s = false -> (Py.len (Py.strip s) < n)%nat ->
      __validate_string_field v g n = Raise (TooShortError g n)) ∧
     (all_space s = false -> (n <= Py.len (Py.strip s))%nat ->
      __validate_string_field v g n = Ok tt)) ∧
  ((n <= 1)%nat -> __validate_string_field v g n ≠ Raise (TooShortError g n)).
Proof.
  split; [|split].
  - intros H. destruct v; try reflexivity. now destruct (H s).
  - intros s ->. unfold __validate_string_field. split; [|split].
    + intros Ha. apply strip_empty in Ha. now rewrite bool_decide_eq_true_2.
    + intros Ha Hl. rewrite bool_decide_eq_false_2.
      * now apply Nat.ltb_lt in Hl as ->.
      * rewrite strip_empty. congruence.
    + intros Ha Hl. rewrite bool_decide_eq_false_2.
      * now apply Nat.ltb_ge in Hl as ->.
      * rewrite strip_empty. congruence.
  - intros Hn. unfold __validate_string_field. destruct v; try discriminate.
    case_bool_decide as He; [discriminate|].
    destruct (Nat.ltb_spec (Py.len (Py.strip s)) n); [|discriminate].
    exfalso. apply He. unfold Py.len in *. destruct (Py.strip s); [reflexivity|cbn in *; lia].
Qed.

(** X3. A contact person that is a str passes exactly when its trimmed value
    splits into at least two tokens: two tokens already make the trimmed
    length sufficient, so the generic check cannot refuse such a value. *)
Theorem contact_person_passes_iff_two_tokens s :
  __validate_contact_person (PyStr s) = Ok tt ↔ (2 <= tokens s)%nat.
Proof.
  split.
  - intros H. apply validate_contact_person_ok in H.
    unfold valid_contact_person in H. apply andb_true_iff in H as [_ H].
    now apply Nat.leb_le in H.
  - intros H. apply validate_contact_person_ok. unfold valid_contact_person.
    apply andb_true_iff. split; [|now apply Nat.leb_le].
    unfold valid_text. apply Nat.leb_le. unfold tokens in H.
    pose proof (split_length (Py.strip s)). unfold Py.len. lia.
Qed.

(** *** The phone rule, character by character *)

Lemma separator_not_digit c : separator c = true -> Py.isdigit_char c = false.
Proof.
  unfold separator.
  destruct (Ascii.eqb_spec c " ") as [->|_]; [reflexivity|].
  destruct (Ascii.eqb_spec c "(") as [->|_]; [reflexivity|].
  destruct (Ascii.eqb_spec c ")") as [->|_]; [reflexivity|].
  destruct (Ascii.eqb_spec c "-") as [->|_]; [reflexivity|discriminate].
Qed.

Lemma all_digits_without_separators s :
  Py.all_digits (without_separators s) = only_phone_chars s.
Proof.
  induction s as [|c r IH]; [reflexivity|]. cbn.
  destruct (separator c) eqn:Hs.
  - now rewrite IH, orb_true_r.
  - cbn. now rewrite IH, orb_false_r.
Qed.

Lemma length_without_separators s :
  only_phone_chars s = true -> String.length (without_separators s) = digits_in s.
Proof.
  induction s as [|c r IH]; [reflexivity|]. cbn.
  intros H. apply andb_true_iff in H as [Hc Hr]. specialize (IH Hr).
  destruct (separator c) eqn:Hs.
  - now rewrite (separator_not_digit c Hs).
  - rewrite orb_false_r in Hc. rewrite Hc. cbn. now rewrite IH.
Qed.

(** X4. The phone rule in terms of the characters of the value itself: a str
    passes exactly when it is made of digits, spaces, parentheses and hyphens
    only and holds at least five digits; it gives TooShortError exactly when
    it is made of such characters only and holds one to four digits, and
    InvalidFormatError exactly when it holds another character or no digit.
    Where the separators stand, and how many there are, does not matter. *)
Theorem phone_by_characters s :
  (__validate_phone (PyStr s) = Ok tt ↔
   only_phone_chars s = true ∧ (5 <= digits_in s)%nat) ∧
  (__validate_phone (PyStr s) = Raise (TooShortError f_phone 5) ↔
   only_phone_chars s = true ∧ (1 <= digits_in s < 5)%nat) ∧
  (__validate_phone (PyStr s) = Raise InvalidFormatError ↔
   only_phone_chars s = false ∨ digits_in s = O).
Proof.
  rewrite validate_phone_run. cbv zeta. unfold Py.len.
  pose proof (all_digits_without_separators s) as Ha.
  pose proof (length_without_separators s) as Hl.
  destruct (only_phone_chars s).
  - specialize (Hl eq_refl). rewrite Hl.
    destruct (without_separators s) as [|c r] eqn:E.
    + cbn in Hl. rewrite <- Hl. cbn.
      repeat split; try discriminate; try lia; intuition (lia || discriminate).
    + cbn [Py.isdigit]. rewrite Ha. cbn [negb].
      cbn in Hl. destruct (Nat.ltb_spec (digits_in s) 5);
        repeat split; try discriminate; try lia; intuition (lia || discriminate).
  - assert (Hd : Py.isdigit (without_separators s) = false).
    { destruct (without_separators s); [reflexivity|exact Ha]. }
    rewrite Hd. cbn.
    repeat split; try discriminate; intuition (lia || discriminate).
Qed.

(** *** The errors of a field *)

Lemma validate_may_raise f v e : validate f v = Raise e -> In e (may_raise f).
Proof.
  assert (Hsf : ∀ g n, __validate_string_field v g n = Raise e ->
                e = TypeError g ∨ e = EmptyValueError g ∨ e = TooShortError g n)
    by (intros; eauto using validate_string_field_errors).
  destruct f; cbn [validate may_raise In].
  - unfold __validate_customer_id.
    destruct (as_int v); [destruct (_ <=? _)%Z|]; intros [= <-]; auto.
  - intros H. apply Hsf in H. intuition auto.
  - intros H. apply Hsf in H. intuition auto.
  - unfold __validate_phone. destruct v; try (intros [= <-]; auto).
    cbv zeta. destruct (negb _); [|destruct (_ <? _)%nat]; intros [= <-]; auto.
  - rewrite validate_contact_person_run.
    destruct (__validate_string_field v f_contact_person 2) as [[]|x] eqn:Hs.
    + destruct v; try discriminate Hs.
      destruct (_ <? _)%nat; intros [= <-]; auto.
    + intros [= <-]. apply Hsf in Hs. intuition auto.
Qed.

(** X5. A setter raises only the errors of its own field, two to four of
    them, and the object is then as before the call: [set_customer_id]
    raises TypeError or RangeError, [set_name] and [set_address] TypeError,
    EmptyValueError or TooShortError, [set_phone] TypeError,
    InvalidFormatError or TooShortError, [set_contact_person] the errors of a
    str field or MalformedNameError. *)
Theorem setter_errors f v self e s' :
  setter f v self = (Raise e, s') -> In e (may_raise f) ∧ s' = self.
Proof.
  rewrite setter_run. destruct (validate f v) as [[]|x] eqn:Hv; [discriminate|].
  intros [= <- <-]. eauto using validate_may_raise.
Qed.

(** X6. The constructor validates in the order identifier, name, address,
    phone, contact person, and the first value that is not valid decides the
    error: a later invalid value is not reported, and the error is one of its
    field's own. *)
Theorem first_invalid_value_decides json_loads a b c p k kwargs :
  let call := new json_loads [a; b; c; p; k] kwargs in
  (∀ e, validate f_customer_id a = Raise e -> call = Raise e) ∧
  (valid_value f_customer_id a = true ->
   ∀ e, validate f_name b = Raise e -> call = Raise e) ∧
  (valid_value f_customer_id a = true -> valid_value f_name b = true ->
   ∀ e, validate f_address c = Raise e -> call = Raise e) ∧
  (valid_value f_customer_id a = true -> valid_value f_name b = true ->
   valid_value f_address c = true ->
   ∀ e, validate f_phone p = Raise e -> call = Raise e) ∧
  (valid_value f_customer_id a = true -> valid_value f_name b = true ->
   valid_value f_address c = true -> valid_value f_phone p = true ->
   ∀ e, validate f_contact_person k = Raise e -> call = Raise e).
Proof.
  cbv zeta. rewrite new_run. cbn [__init__]. rewrite validate_and_init_run.
  unfold validations, mbind, result_bind.
  split; [|split; [|split; [|split]]].
  - now intros e ->.
  - intros Ha e Hb. apply validate_ok in Ha. now rewrite Ha, Hb.
  - intros Ha Hb e Hc. apply validate_ok in Ha, Hb. now rewrite Ha, Hb, Hc.
  - intros Ha Hb Hc e Hp. apply validate_ok in Ha, Hb, Hc. now rewrite Ha, Hb, Hc, Hp.
  - intros Ha Hb Hc Hp e Hk. apply validate_ok in Ha, Hb, Hc, Hp.
    now rewrite Ha, Hb, Hc, Hp, Hk.
Qed.

(** *** Construction as a whole *)

Lemma validate_and_init_all_or_nothing a b c p k :
  all_or_nothing (__validate_and_init a b c p k).
Proof.
  destruct (validations a b c p k) as [[]|e] eqn:Hv.
  - left. exists (mk (Some a) (Some b) (Some c) (Some p) (Some k)). split.
    + apply validations_ok in Hv as (? & ? & ? & ? & ?). intros []; cbn; eauto.
    + intros self. now rewrite validate_and_init_run, Hv.
  - right. exists e. intros self. now rewrite validate_and_init_run, Hv.
Qed.

Lemma init_from_dict_all_or_nothing data : all_or_nothing (__init_from_dict data).
Proof.
  destruct data as [| | | | s | l | d].
  1-4: right; exists PyTypeError; reflexivity.
  3: { destruct (absent d) eqn:Ha.
       - apply absent_nil in Ha as (a & b & c & p & k & Hb).
         destruct (validate_and_init_all_or_nothing a b c p k)
           as [(o & Ho & H)|(e & H)]; [left; exists o; split; [exact Ho|]|right; exists e];
           intros self; now rewrite (init_from_dict_binds _ _ _ _ _ _ _ Hb).
       - right. eexists. intros self. apply init_from_dict_missing. congruence. }
  all: right; unfold __init_from_dict, mbind at 1, M_bind at 1, lift at 1;
    match goal with |- context [missing_fields ?fs ?x] =>
      destruct (missing_fields_not_dict fs x) as [[m ->]| ->] end;
    [destruct m; eexists; reflexivity | eexists; reflexivity].
Qed.

(** X7. A call of [__init__], on a fresh object or on a record that exists
    already, is all or nothing: either it raises, and the object it ran on is
    unchanged, or it returns, and the object is a valid record that depends
    on the arguments only, not on what the object held before. *)
Theorem init_is_all_or_nothing json_loads args kwargs :
  all_or_nothing (__init__ json_loads args kwargs).
Proof.
  unfold __init__.
  destruct args as [|a0 [|a1 [|a2 [|a3 [|a4 [|a5 rest]]]]]];
    try (case_bool_decide;
         [right; eexists; reflexivity|apply init_from_dict_all_or_nothing]).
  - destruct a0; try (right; eexists; reflexivity);
      try apply init_from_dict_all_or_nothing.
    destruct (json_loads s);
      [apply init_from_dict_all_or_nothing|right; eexists; reflexivity..].
  - apply validate_and_init_all_or_nothing.
Qed.

(** *** Setters and getters *)

Lemma assign_other f g v self : g ≠ f -> slot g (assign f v self) = slot g self.
Proof. destruct f, g; cbn; congruence. Qed.

Lemma assign_same f v self : slot f (assign f v self) = Some v.
Proof. now destruct f. Qed.

(** X8. A setter given a valid value returns, stores the value as it was
    given (a padded name stays padded), so that the getter of the field
    returns it, and leaves the other four attributes as they were. *)
Theorem setter_stores_the_value f v self :
  valid_value f v = true ->
  setter f v self = (Ok tt, assign f v self) ∧
  getter f (assign f v self) = (Ok v, assign f v self) ∧
  ∀ g, g ≠ f -> getter g (assign f v self)
                = (fst (getter g self), assign f v self).
Proof.
  intros Hv. apply validate_ok in Hv. split; [|split].
  - now rewrite setter_run, Hv.
  - now rewrite getter_run, assign_same.
  - intros g Hg. rewrite !getter_run, (assign_other f g v self Hg).
    now destruct (slot g self).
Qed.

Lemma assign_commute f g v w self :
  f ≠ g -> assign g w (assign f v self) = assign f v (assign g w self).
Proof. destruct f, g; cbn; congruence. Qed.

(** X9. Two setters of different fields can be called in either order: the
    object after both calls is the same, whether each of them returns or
    raises. *)
Theorem setters_of_different_fields_commute f g v w self :
  f ≠ g ->
  snd (setter g w (snd (setter f v self))) = snd (setter f v (snd (setter g w self))).
Proof.
  intros Hfg. rewrite !setter_run.
  destruct (validate f v) as [[]|], (validate g w) as [[]|]; cbn [snd];
    rewrite ?setter_run;
    repeat match goal with
           | |- context [validate ?h ?x] => destruct (validate h x) as [[]|]
           end; cbn [snd]; auto using assign_commute.
Qed.

(** X10. On a record a caller can hold, a getter never raises: it returns a
    value that is valid for its field and leaves the record as it is. *)
Theorem getters_of_observable_records json_loads self f :
  observable json_loads self ->
  ∃ v, getter f self = (Ok v, self) ∧ valid_value f v = true.
Proof.
  intros H.
  assert (Hv : valid self) by (induction H; eauto using new_valid, after_valid).
  destruct (Hv f) as (v & Hs & Hval). exists v.
  now rewrite getter_run, Hs.
Qed.

(** X11. The four shapes agree on every quintuple of values, valid or not: a
    mapping that binds the five keys to them, a text that decodes to such a
    mapping and the same entries as named parameters return the record, or
    raise the error, of the positional call.  Other keys of the mapping play
    no part. *)
Theorem shapes_agree_on_all_values json_loads d a b c p k kwargs :
  binds d a b c p k ->
  new json_loads [PyDict d] kwargs = new json_loads [a; b; c; p; k] kwargs ∧
  (∀ text, json_loads text = Decoded (PyDict d) ->
     new json_loads [PyStr text] kwargs = new json_loads [a; b; c; p; k] kwargs) ∧
  new json_loads [] d = new json_loads [a; b; c; p; k] kwargs.
Proof.
  intros Hb.
  assert (H : ∀ self, __init_from_dict (PyDict d) self
                      = __validate_and_init a b c p k self)
    by (intros; now apply init_from_dict_binds).
  split; [|split].
  - unfold new. cbn [__init__]. now rewrite H.
  - intros text Ht. unfold new. cbn [__init__]. now rewrite Ht, H.
  - unfold new. rewrite init_named; cbn; try lia; eauto using binds_nonempty.
    now rewrite H.
Qed.

Lemma missing_fields_list_any fields l :
  missing_fields fields (PyList l)
  = Ok (List.filter (fun key => negb (existsb (Py.eq_str key) l)) fields).
Proof.
  induction fields as [|f fs IH]; [reflexivity|].
  cbn [missing_fields List.filter Py.not_in]. rewrite IH. reflexivity.
Qed.

Lemma missing_fields_str fields s :
  missing_fields fields (PyStr s)
  = Ok (List.filter (fun key => negb (Py.contains key s)) fields).
Proof.
  induction fields as [|f fs IH]; [reflexivity|].
  cbn [missing_fields List.filter Py.not_in]. rewrite IH. reflexivity.
Qed.

(** X12. A text that decodes to something else than a mapping never builds a
    record.  A number, a boolean or null makes the key test itself fail, and
    the interpreter's TypeError leaves the constructor, which is no
    ValueError.  An array or a string is tested for the five key names, as
    elements or as substrings: the names it lacks are reported with
    MissingFieldError, and if it lacks none the subscript fails with
    TypeError. *)
Theorem text_that_is_no_mapping json_loads text data kwargs :
  json_loads text = Decoded data ->
  (scalar data = true -> new json_loads [PyStr text] kwargs = Raise PyTypeError) ∧
  (∀ l, data = PyList l ->
     new json_loads [PyStr text] kwargs =
       match not_elements l with
       | [] => Raise PyTypeError
       | missing => Raise (MissingFieldError missing)
       end) ∧
  (∀ s, data = PyStr s ->
     new json_loads [PyStr text] kwargs =
       match not_substrings s with
       | [] => Raise PyTypeError
       | missing => Raise (MissingFieldError missing)
       end).
Proof.
  intros Ht. split; [|split].
  - intros Hs. unfold new. cbn [__init__]. rewrite Ht.
    destruct data; try discriminate Hs; reflexivity.
  - intros l ->. unfold new. cbn [__init__]. rewrite Ht.
    unfold __init_from_dict, mbind at 1, M_bind at 1, lift at 1.
    rewrite missing_fields_list_any. fold (not_elements l).
    now destruct (not_elements l).
  - intros s ->. unfold new. cbn [__init__]. rewrite Ht.
    unfold __init_from_dict, mbind at 1, M_bind at 1, lift at 1.
    rewrite missing_fields_str. fold (not_substrings s).
    now destruct (not_substrings s).
Qed.

(** X13. Five valid values given to the five setters, on any object, make the
    record the constructor builds from them. *)
Theorem setters_rebuild_the_record json_loads a b c p k kwargs self :
  valid_value f_customer_id a = true -> valid_value f_name b = true ->
  valid_value f_address c = true -> valid_value f_phone p = true ->
  valid_value f_contact_person k = true ->
  ∃ built, set_all a b c p k self = (Ok tt, built) ∧
           new json_loads [a; b; c; p; k] kwargs = Ok built.
Proof.
  intros Ha Hb Hc Hp Hk.
  exists (mk (Some a) (Some b) (Some c) (Some p) (Some k)). split.
  - apply validate_ok in Ha, Hb, Hc, Hp, Hk. cbn [validate] in *.
    unfold set_all, set_customer_id, set_name, set_address, set_phone,
      set_contact_person, mbind, M_bind, lift, setattr.
    rewrite Ha, Hb, Hc, Hp, Hk. reflexivity.
  - rewrite new_run. cbn [__init__]. rewrite validate_and_init_run.
    assert (Hv : validations a b c p k = Ok tt) by now apply validations_ok.
    now rewrite Hv.
Qed.

(** *** The further properties at sample data *)

Lemma string_field_cases_witness :
  __validate_string_field (PyStr "   ") f_name 2 = Raise (EmptyValueError f_name) ∧
  __validate_string_field (PyStr " A ") f_name 2 = Raise (TooShortError f_name 2) ∧
  __validate_string_field (PyStr " AB ") f_name 2 = Ok tt ∧
  __validate_string_field (PyInt 5) f_name 2 = Raise (TypeError f_name).
Proof.
  destruct (string_field_cases (PyStr "   ") f_name 2) as (_ & Hblank & _).
  destruct (string_field_cases (PyStr " A ") f_name 2) as (_ & Hshort & _).
  destruct (string_field_cases (PyStr " AB ") f_name 2) as (_ & Hgood & _).
  destruct (string_field_cases (PyInt 5) f_name 2) as (Htype & _).
  destruct (Hblank _ eq_refl) as (H1 & _).
  destruct (Hshort _ eq_refl) as (_ & H2 & _).
  destruct (Hgood _ eq_refl) as (_ & _ & H3).
  split; [|split; [|split]].
  - apply H1. reflexivity.
  - apply H2; [reflexivity|vm_compute; lia].
  - apply H3; [reflexivity|vm_compute; lia].
  - apply Htype. intros s. discriminate.
Defined.

Lemma setter_errors_witness :
  In (TooShortError f_phone 5) (may_raise f_phone) ∧ Sample.record = Sample.record.
Proof.
  apply (setter_errors f_phone (PyStr "12") Sample.record). vm_compute. reflexivity.
Defined.

Lemma first_invalid_value_decides_witness :
  new Json.loads [PyInt 0; PyStr "A"; PyStr "Main street 5"; PyStr "12"; PyStr "Ivanov"] ∅
  = Raise RangeError ∧
  new Json.loads [PyInt 7; PyStr "A"; PyStr "Main street 5"; PyStr "12"; PyStr "Ivanov"] ∅
  = Raise (TooShortError f_name 2) ∧
  new Json.loads [PyInt 7; PyStr "AB"; PyStr "Main street 5"; PyStr "12"; PyStr "Ivanov"] ∅
  = Raise (TooShortError f_phone 5).
Proof.
  destruct (first_invalid_value_decides Json.loads (PyInt 0) (PyStr "A")
              (PyStr "Main street 5") (PyStr "12") (PyStr "Ivanov") ∅) as (Hid & _).
  destruct (first_invalid_value_decides Json.loads (PyInt 7) (PyStr "A")
              (PyStr "Main street 5") (PyStr "12") (PyStr "Ivanov") ∅)
    as (_ & Hname & _).
  destruct (first_invalid_value_decides Json.loads (PyInt 7) (PyStr "AB")
              (PyStr "Main street 5") (PyStr "12") (PyStr "Ivanov") ∅)
    as (_ & _ & _ & Hphone & _).
  split; [|split].
  - apply Hid. reflexivity.
  - apply Hname; reflexivity.
  - apply Hphone; reflexivity.
Defined.

Lemma setter_stores_the_value_witness :
  set_name (PyStr "  Romashka  ") Sample.record
  = (Ok tt, assign f_name (PyStr "  Romashka  ") Sample.record) ∧
  get_name (assign f_name (PyStr "  Romashka  ") Sample.record)
  = (Ok (PyStr "  Romashka  "), assign f_name (PyStr "  Romashka  ") Sample.record) ∧
  get_phone (assign f_name (PyStr "  Romashka  ") Sample.record)
  = (Ok (PyStr "12-34(56)"), assign f_name (PyStr "  Romashka  ") Sample.record).
Proof.
  destruct (setter_stores_the_value f_name (PyStr "  Romashka  ") Sample.record)
    as (Hset & Hget & Hother); [vm_compute; reflexivity|].
  split; [exact Hset|split; [exact Hget|]].
  apply (Hother f_phone). discriminate.
Defined.

Lemma setters_of_different_fields_commute_witness :
  snd (set_phone (PyStr "12") (snd (set_name (PyStr "Romashka") Sample.record)))
  = snd (set_name (PyStr "Romashka") (snd (set_phone (PyStr "12") Sample.record))).
Proof.
  apply (setters_of_different_fields_commute f_name f_phone). discriminate.
Defined.

Lemma getters_of_observable_records_witness :
  ∃ v, getter f_address
         (after Json.loads (call_set f_address (PyStr "x")) Sample.record)
       = (Ok v, after Json.loads (call_set f_address (PyStr "x")) Sample.record) ∧
       valid_value f_address v = true.
Proof.
  apply (getters_of_observable_records Json.loads).
  apply observable_after.
  apply (observable_new Json.loads [PyDict Sample.mapping] ∅).
  vm_compute. reflexivity.
Defined.

Lemma shapes_agree_on_all_values_witness :
  new Json.loads [PyDict Sample.zero_id] ∅
  = new Json.loads [PyInt 0; PyStr "AB"; PyStr "Main street 5"; PyStr "12-34(56)";
                    PyStr "Ivan Ivanov"] ∅ ∧
  new Json.loads [PyStr Sample.text_zero_id] ∅
  = new Json.loads [PyInt 0; PyStr "AB"; PyStr "Main street 5"; PyStr "12-34(56)";
                    PyStr "Ivan Ivanov"] ∅.
Proof.
  destruct (shapes_agree_on_all_values Json.loads Sample.zero_id (PyInt 0) (PyStr "AB")
              (PyStr "Main street 5") (PyStr "12-34(56)") (PyStr "Ivan Ivanov") ∅)
    as (Hmap & Htext & _).
  - repeat split; vm_compute; reflexivity.
  - split; [exact Hmap|]. apply Htext. vm_compute. reflexivity.
Defined.

Lemma text_that_is_no_mapping_witness :
  new Json.loads [PyStr "5"] ∅ = Raise PyTypeError ∧
  new Json.loads [PyStr ("[" +:+ Json.q "name" +:+ ", 1]")] ∅
  = Raise (MissingFieldError ["customer_id"; "address"; "phone"; "contact_person"]) ∧
  new Json.loads [PyStr (Json.q "the phone of the contact_person")] ∅
  = Raise (MissingFieldError ["customer_id"; "name"; "address"]).
Proof.
  destruct (text_that_is_no_mapping Json.loads "5" (PyInt 5) ∅ eq_refl) as (H5 & _).
  destruct (text_that_is_no_mapping Json.loads ("[" +:+ Json.q "name" +:+ ", 1]")
              (PyList [PyStr "name"; PyInt 1]) ∅) as (_ & Hl & _);
    [vm_compute; reflexivity|].
  destruct (text_that_is_no_mapping Json.loads (Json.q "the phone of the contact_person")
              (PyStr "the phone of the contact_person") ∅) as (_ & _ & Hs);
    [vm_compute; reflexivity|].
  split; [|split].
  - apply H5. reflexivity.
  - exact (Hl _ eq_refl).
  - exact (Hs _ eq_refl).
Defined.

Lemma setters_rebuild_the_record_witness :
  ∃ built,
    set_all (PyInt 7) (PyStr "AB") (PyStr "Main street 5") (PyStr "12-34(56)")
      (PyStr "Ivan Ivanov") blank = (Ok tt, built) ∧
    new Json.loads [PyInt 7; PyStr "AB"; PyStr "Main street 5"; PyStr "12-34(56)";
                    PyStr "Ivan Ivanov"] ∅ = Ok built.
Proof.
  apply (setters_rebuild_the_record Json.loads); vm_compute; reflexivity.
Defined.
